(** * Web-Crawler-project: the Go collectors, embedded and verified

    The repository holds four independent command-line collectors
    (NewsAPI, GDELT, The Guardian, X) plus an RSS reader.  Every
    collector builds one HTTP GET, reads the body, decodes a fixed JSON
    shape and ranks a categorical field with [getTopN].

    The embedding follows the Go sources statement by statement:
    - Go strings are byte strings ([string], one [ascii] per byte);
    - Go [int] is taken at its 64-bit width, a two's complement integer
      kept as a [Z] with the wrap-around written out where the code does
      arithmetic;
    - [map[string]int] is a [gmap string Z];
    - a function returning a pointer and an [error] returns a pair of
      options;
    - console output, the HTTP round trip and the JSON decoder are
      effects: they are recorded in an event trace, and what the outside
      world answers is an explicit argument. *)

From stdpp Require Import gmap strings list fin_maps pretty sorting.
From Stdlib Require Import ZArith Ascii Lia.

Local Open Scope Z_scope.

(* ===================================================================== *)
(** * Go runtime and standard library, as far as the collectors use it    *)
(* ===================================================================== *)

Module Go.

(** ** int *)

Definition max_int : Z := 2 ^ 63 - 1.
Definition min_int : Z := - 2 ^ 63.

(** Two's complement wrap-around of a 64-bit [int]. *)
Definition wrap (z : Z) : Z := (z + 2 ^ 63) mod 2 ^ 64 - 2 ^ 63.

(** ** error

    An [error] is observed only through its [Error()] text. *)
Definition error : Type := string.

(** What a call yields when it may panic at run time. *)
Inductive outcome (A : Type) : Type :=
| Returns (a : A)
| Panics (msg : string).
Arguments Returns {A} a.
Arguments Panics {A} msg.

(** ** string *)

(** The double quote and the newline, which string literals here
    cannot spell. *)
Definition dquote : string := String "034"%char EmptyString.
Definition nl : string := String "010"%char EmptyString.

(** [len(s)]: the number of bytes. *)
Definition len (s : string) : Z := Z.of_nat (String.length s).

(** [s[:n]] for [0 <= n <= len(s)]. *)
Definition slice_string_to (s : string) (n : nat) : string :=
  String.substring 0 n s.

(** [strings.Contains(hay, needle)], by scanning the start positions. *)
Fixpoint Contains (hay needle : string) : bool :=
  String.prefix needle hay ||
  match hay with
  | EmptyString => false
  | String _ rest => Contains rest needle
  end.

(** [needle] occurs in [hay]: the specification of [Contains]. *)
Definition occurs_in (needle hay : string) : Prop :=
  ∃ before after, hay = before +:+ needle +:+ after.

(** [strings.Join(elems, sep)]. *)
Fixpoint Join (elems : list string) (sep : string) : string :=
  match elems with
  | [] => ""
  | [e] => e
  | e :: rest => e +:+ sep +:+ Join rest sep
  end.

(** [strings.ReplaceAll(s, old, new)] for a non-empty [old] (the only
    use in the collectors): non-overlapping occurrences are replaced
    from left to right.  [skip] counts the bytes of a matched [old]
    that are still to be dropped. *)
Fixpoint ReplaceAll_from (old new : string) (skip : nat) (s : string) : string :=
  match s with
  | EmptyString => ""
  | String c rest =>
      match skip with
      | S k => ReplaceAll_from old new k rest
      | O =>
          if String.prefix old s
          then new +:+ ReplaceAll_from old new (String.length old - 1) rest
          else String c (ReplaceAll_from old new O rest)
      end
  end.

Definition ReplaceAll (s old new : string) : string :=
  ReplaceAll_from old new O s.

(** ** fmt *)

(** [fmt.Sprintf("%d", n)]. *)
Definition Sprintf_d (n : Z) : string := pretty n.

(** [n] spaces. *)
Fixpoint spaces (n : nat) : string :=
  match n with
  | O => ""
  | S k => String " " (spaces k)
  end.

(** [fmt.Sprintf("%2d", n)]: the decimal text, padded on the left to two
    characters. *)
Definition Sprintf_2d (n : Z) : string :=
  spaces (2 - String.length (Sprintf_d n)) +:+ Sprintf_d n.

(** [fmt.Sprintf("%-Ws", s)] for a width [W]: [s], padded on the right
    to [W] characters.  The width counts runes, not bytes; [RuneCount]
    stands for [utf8.RuneCountInString]. *)
Definition Sprintf_left (RuneCount : string → nat) (width : nat) (s : string)
    : string :=
  s +:+ spaces (width - RuneCount s).

(** ** net/url *)

Definition hex_digit (n : N) : ascii :=
  match n with
  | 0 => "0" | 1 => "1" | 2 => "2" | 3 => "3" | 4 => "4"
  | 5 => "5" | 6 => "6" | 7 => "7" | 8 => "8" | 9 => "9"
  | 10 => "A" | 11 => "B" | 12 => "C" | 13 => "D" | 14 => "E"
  | _ => "F"
  end%N%char.

(** [shouldEscape(c, encodeQueryComponent)]: only letters, digits and
    the marks [- _ . ~] pass unescaped. *)
Definition shouldEscape (c : ascii) : bool :=
  let n := N_of_ascii c in
  negb (  (97 <=? n) && (n <=? 122)
       || (65 <=? n) && (n <=? 90)
       || (48 <=? n) && (n <=? 57)
       || (n =? 45) || (n =? 95) || (n =? 46) || (n =? 126))%N.

(** [url.QueryEscape]: a space becomes [+], any other escaped byte
    becomes [%XX] in upper-case hexadecimal. *)
Fixpoint QueryEscape (s : string) : string :=
  match s with
  | EmptyString => ""
  | String c rest =>
      if shouldEscape c then
        if Ascii.eqb c " "%char then String "+"%char (QueryEscape rest)
        else
          let n := N_of_ascii c in
          String "%"%char
            (String (hex_digit (n / 16)%N)
               (String (hex_digit (n mod 16)%N) (QueryEscape rest)))
      else String c (QueryEscape rest)
  end.

(** [url.Values] is [map[string][]string]. *)
Abbreviation Values := (gmap string (list string)).

(** [v.Add(key, value)] appends to the values already under [key]. *)
Definition Values_Add (key value : string) (v : Values) : Values :=
  <[key := default [] (v !! key) ++ [value]]> v.

(** [v[key]]. *)
Definition Values_index (v : Values) (key : string) : list string :=
  default [] (v !! key).

(** [v.Encode()]: the keys in ascending byte order, each value as
    [key=value] with both sides escaped, joined by [&]. *)
Definition Values_Encode (v : Values) : string :=
  let keys := merge_sort String.le (map fst (map_to_list v)) in
  Join
    (k ← keys;
     (λ value, QueryEscape k +:+ "=" +:+ QueryEscape value) <$> Values_index v k)
    "&".

(** ** net/http *)

(** [http.Header] is [map[string][]string]; every key the collectors
    set is already in canonical form. *)
Abbreviation Header := (gmap string (list string)).

Definition Header_Set (key value : string) (h : Header) : Header :=
  <[key := [value]]> h.

Record Request : Type := mkRequest {
  ReqMethod : string;
  ReqURL : string;
  ReqHeader : Header;
}.

(** [req.Header.Set(key, value)]. *)
Definition set_header (key value : string) (req : Request) : Request :=
  mkRequest (ReqMethod req) (ReqURL req) (Header_Set key value (ReqHeader req)).

(** A response as the collector sees it: the status line and what
    [io.ReadAll(resp.Body)] yields. *)
Record Response : Type := mkResponse {
  StatusCode : Z;
  Body : error + string;
}.

Definition StatusOK : Z := 200.

(** A status code outside the 2xx class. *)
Definition not_2xx (code : Z) : Prop := ¬ (200 ≤ code < 300).

(** [http.Client]: only the timeout is configured. *)
Record HTTPClient : Type := mkClient {
  Timeout : Z;  (* seconds *)
}.

(** [time.Time], an instant in Unix seconds. *)
Definition Time : Type := Z.

(** The outside world of one run: whether [http.NewRequest] accepts a
    URL, and what the single round trip answers. *)
Record Network : Type := mkNetwork {
  url_Parse_err : string → option error;
  RoundTrip : Request → error + Response;
}.

(** ** encoding/json

    [json.Unmarshal(body, &v)] for a target type [T]: the decoded value
    or the decoder's error. *)
Class JSON (T : Type) : Type := Unmarshal : string → error + T.

(** ** Effects

    What a call does to the outside world, in order.  Closing the body
    ([defer resp.Body.Close()]) answers nothing and is not recorded. *)

Inductive event : Type :=
| EvPrintf (out : string)
| EvDo (req : Request)
| EvReadAll
| EvUnmarshal (body : string).

(** A computation that logs events and may leave the function early
    with the function's result [R] (Go's [return]). *)
Definition M (R A : Type) : Type := list event * (R + A).

#[global] Instance M_ret {R} : MRet (M R) := λ A a, ([], inr a).
#[global] Instance M_bind {R} : MBind (M R) := λ A B f c,
  match c.2 with
  | inl r => (c.1, inl r)
  | inr a => ((c.1 ++ (f a).1)%list, (f a).2)
  end.

Definition emit {R} (e : event) : M R unit := ([e], inr tt).
Definition Return {R A} (r : R) : M R A := ([], inl r).

(** Running a function body: the trace and the value returned. *)
Definition run {R} (body : M R R) : list event * R :=
  (body.1, match body.2 with inl r => r | inr r => r end).

(** The requests a run has sent, in order. *)
Definition requests_sent (trace : list event) : list Request :=
  omap (λ e, match e with EvDo req => Some req | _ => None end) trace.

(** The bodies a run has handed to the JSON decoder, in order. *)
Definition bodies_decoded (trace : list event) : list string :=
  omap (λ e, match e with EvUnmarshal body => Some body | _ => None end) trace.

(** The run sent a request and the network answered it with [resp]. *)
Definition answered (net : Network) (trace : list event) (resp : Response) : Prop :=
  ∃ req, req ∈ requests_sent trace ∧ RoundTrip net req = inr resp.

(** [if err != nil { return handler(err) }]. *)
Definition try {R A} (x : error + A) (handler : error → R) : M R A :=
  match x with
  | inl err => Return (handler err)
  | inr a => mret a
  end.

Definition Printf {R} (out : string) : M R unit := emit (EvPrintf out).

(** [http.NewRequest("GET", url, nil)]. *)
Definition NewRequest (net : Network) (method url : string) : error + Request :=
  match url_Parse_err net url with
  | Some err => inl err
  | None => inr (mkRequest method url ∅)
  end.

(** [client.Get(url)]: the request is built and sent in one call. *)
Definition Get {R} (net : Network) (url : string) (handler : error → R) : M R Response :=
  req ← try (NewRequest net "GET" url) handler;
  emit (EvDo req);; try (RoundTrip net req) handler.

(** [client.Do(req)]. *)
Definition Do {R} (net : Network) (req : Request) (handler : error → R) : M R Response :=
  emit (EvDo req);; try (RoundTrip net req) handler.

(** [io.ReadAll(resp.Body)]. *)
Definition ReadAll {R} (resp : Response) (handler : error → R) : M R string :=
  emit EvReadAll;; try (Body resp) handler.

(** [json.Unmarshal(body, &v)]. *)
Definition Decode {R T} `{JSON T} (body : string) (handler : error → R) : M R T :=
  emit (EvUnmarshal body);; try (Unmarshal body) handler.

End Go.
Export Go.

(* ===================================================================== *)
(** * The preview of an undecodable body

    The same three lines stand in the decode branch of each of the four
    collectors.                                                           *)
(* ===================================================================== *)

(** The preview of a body that failed to decode:
<<
    preview := string(body)
    if len(preview) > 500 { preview = preview[:500] + "..." }
>> *)
Definition preview (body : string) : string :=
  if bool_decide (len body > 500)
  then slice_string_to body 500 +:+ "..."
  else body.

(** The message ends with the preview of the body. *)
Definition quotes_preview (msg body : string) : Prop :=
  ∃ text, msg = text +:+ preview body.

(* ===================================================================== *)
(** * The frequency table and [getTopN]

    [KeyValue] and [getTopN] are repeated, token for token, in
    news_crawler.go, gdelt_crawler.go and the Guardian collector; the
    counting loop [for _, art := range ... { table[field]++ }] is the
    same in the three [ExplorarDatos] functions.                          *)
(* ===================================================================== *)

(** ** Counting *)

(** [table[k]++]: a missing key reads as the zero value. *)
Definition incr (table : gmap string Z) (k : string) : gmap string Z :=
  <[k := wrap (default 0 (table !! k) + 1)]> table.

(** [table := make(map[string]int); for _, r := range records { table[field(r)]++ }]. *)
Definition count_by {A : Type} (field : A → string) (records : list A)
    : gmap string Z :=
  foldl (λ table r, incr table (field r)) ∅ records.

(** The sum of all counts of a table. *)
Definition sum_counts (table : gmap string Z) : Z :=
  map_fold (λ _ v acc, v + acc) 0 table.

(** How often the value [k] occurs as the field of a record. *)
Definition occurrences {A : Type} (field : A → string) (k : string)
    (records : list A) : Z :=
  Z.of_nat (length (filter (λ r, field r = k) records)).

(** The records with a non-empty field value. *)
Definition with_value {A : Type} (field : A → string) (records : list A) : list A :=
  filter (λ r, field r ≠ "") records.

(** ** Ranking *)

Record KeyValue : Type := mkKeyValue {
  Key : string;
  Value : Z;
}.

#[global] Instance KeyValue_eq_dec : EqDecision KeyValue.
Proof. solve_decision. Defined.

(** The comparison handed to [sort.Slice]:
    [kvList[i].Value > kvList[j].Value]. *)
Definition less (a b : KeyValue) : bool := bool_decide (Value a > Value b).

(** Two neighbours are in order when the second is not [less] than the
    first; this is what [sort.SliceIsSorted] checks. *)
Definition in_order (a b : KeyValue) : Prop := less b a = false.

#[global] Instance in_order_dec : RelDecision in_order.
Proof. intros a b. unfold in_order. apply _. Defined.

(** [sort.Slice(x, less)]: the slice is rearranged in place into sorted
    order; the sort is not stable, so nothing more is promised. *)
Definition sort_Slice (before after : list KeyValue) : Prop :=
  after ≡ₚ before ∧ Sorted in_order after.

(** [s[:n]] panics unless [0 <= n <= cap(s)].  [getTopN] slices only
    after [n] has been clamped to [len(s)], and [len(s) <= cap(s)], so
    checking against the length decides the same cases there. *)
Definition slice_to {A : Type} (s : list A) (n : Z) : outcome (list A) :=
  if bool_decide (0 ≤ n ≤ Z.of_nat (length s))
  then Returns (take (Z.to_nat n) s)
  else Panics "slice bounds out of range".

(** The variables of one call of [getTopN], and what it has printed.
    [fr_m] is the map object the argument refers to: Go maps are
    references, so a write to it would reach the caller. *)
Record frame : Type := mkFrame {
  fr_m : gmap string Z;
  fr_n : Z;
  fr_kvList : list KeyValue;
  fr_out : list string;
}.

(** On entry [kvList] is the nil slice and nothing has been printed. *)
Definition entry (m : gmap string Z) (n : Z) : frame := mkFrame m n [] [].

(** [KeyValue{k, v}]. *)
Definition as_KeyValue (kv : string * Z) : KeyValue := mkKeyValue kv.1 kv.2.

(** [for k, v := range m { kvList = append(kvList, KeyValue{k, v}) }]
    along the iteration order [order]. *)
Definition append_all (kvList : list KeyValue) (order : list (string * Z))
    : list KeyValue :=
  foldl (λ acc kv, acc ++ [as_KeyValue kv]) kvList order.

(** The loop visits every entry of the map once, in an order the
    language leaves open. *)
Definition range_loop (s s' : frame) : Prop :=
  ∃ order, order ≡ₚ map_to_list (fr_m s) ∧
    s' = mkFrame (fr_m s) (fr_n s) (append_all (fr_kvList s) order) (fr_out s).

Definition sort_step (s s' : frame) : Prop :=
  ∃ sorted, sort_Slice (fr_kvList s) sorted ∧
    s' = mkFrame (fr_m s) (fr_n s) sorted (fr_out s).

(** [if n > len(kvList) { n = len(kvList) }]. *)
Definition clamp_step (s : frame) : frame :=
  if bool_decide (fr_n s > Z.of_nat (length (fr_kvList s)))
  then mkFrame (fr_m s) (Z.of_nat (length (fr_kvList s))) (fr_kvList s) (fr_out s)
  else s.

(** [return kvList[:n]]. *)
Definition result (s : frame) : outcome (list KeyValue) :=
  slice_to (fr_kvList s) (fr_n s).

(** [getTopN m n final]: a call [getTopN(m, n)] can reach the [return]
    statement in frame [final]; [result final] is what it then yields. *)
Definition getTopN (m : gmap string Z) (n : Z) (final : frame) : Prop :=
  ∃ s1 s2, range_loop (entry m n) s1 ∧ sort_step s1 s2 ∧ final = clamp_step s2.

(** One run that can be executed: the entries in the order of
    [map_to_list], sorted by a merge sort. *)
Definition getTopN_exec (m : gmap string Z) (n : Z) : frame :=
  clamp_step
    (mkFrame m n (merge_sort in_order (append_all [] (map_to_list m))) []).

(** Counts do not increase from the first entry to the last. *)
Definition non_increasing (l : list KeyValue) : Prop :=
  ∀ (i j : nat) a b, (i ≤ j)%nat → l !! i = Some a → l !! j = Some b →
    Value b ≤ Value a.

(* ===================================================================== *)
(** * news_crawler.go: the NewsAPI collector                              *)
(* ===================================================================== *)

Module NewsAPI.

Record NewsAPISource : Type := mkSource {
  Name : string;
}.

Record NewsAPIArticle : Type := mkArticle {
  Source : NewsAPISource;
  Author : string;
  Title : string;
  URL : string;
  PublishedAt : Time;
  Content : string;
}.

Record NewsAPIResponse : Type := mkNewsAPIResponse {
  Status : string;
  TotalResults : Z;
  Articles : list NewsAPIArticle;
}.

Record NewsAPICrawler : Type := mkCrawler {
  BaseURL : string;
  Client : HTTPClient;
  APIKey : string;
}.

Definition NewNewsAPICrawler (apiKey : string) : NewsAPICrawler :=
  {| BaseURL := "https://newsapi.org/v2/everything";
     Client := {| Timeout := 20 |};
     APIKey := apiKey |}.

(** Steps 1 and 2 of [BuscarArticulos]: the query and the URL.  The
    query is the result of a [Sprintf] whose format has no verb. *)
Definition finalQuery (queryRaw : string) : string :=
  dquote +:+ "Universidad de Antioquia" +:+ dquote +:+ " OR UdeA".

Definition params (queryRaw idiomasCSV fechaInicio fechaFin : string)
    (pageSize : Z) : Values :=
  Values_Add "to" fechaFin
    (Values_Add "from" fechaInicio
       (Values_Add "pageSize" (Sprintf_d pageSize)
          (Values_Add "sortBy" "publishedAt"
             (Values_Add "language" idiomasCSV
                (Values_Add "q" (finalQuery queryRaw) ∅))))).

Definition fullURL (n : NewsAPICrawler)
    (queryRaw idiomasCSV fechaInicio fechaFin : string) (pageSize : Z) : string :=
  BaseURL n +:+ "?" +:+
  Values_Encode (params queryRaw idiomasCSV fechaInicio fechaFin pageSize).

(** [fmt.Printf("Consultando NewsAPI...\nQuery: %s\nIdiomas: %s\nRango: %s a %s\n", ...)]. *)
Definition banner (queryRaw idiomasCSV fechaInicio fechaFin : string) : string :=
  "Consultando NewsAPI..." +:+ nl +:+
  "Query: " +:+ finalQuery queryRaw +:+ nl +:+
  "Idiomas: " +:+ idiomasCSV +:+ nl +:+
  "Rango: " +:+ fechaInicio +:+ " a " +:+ fechaFin +:+ nl.

(** [fmt.Errorf("error parseando JSON: %w. \nRespuesta recibida (Inicio):\n%s", err, preview)]. *)
Definition decode_error (err body : string) : error :=
  "error parseando JSON: " +:+ err +:+ ". " +:+ nl +:+
  "Respuesta recibida (Inicio):" +:+ nl +:+ preview body.

(** [fmt.Errorf("error de NewsAPI (Status: %s). El cuerpo puede tener más detalles: %s", status, body)]. *)
Definition status_error (status body : string) : error :=
  "error de NewsAPI (Status: " +:+ status +:+
  "). El cuerpo puede tener más detalles: " +:+ body.

Definition BuscarArticulos `{!JSON NewsAPIResponse} (net : Network)
    (n : NewsAPICrawler) (queryRaw idiomasCSV fechaInicio fechaFin : string)
    (pageSize : Z) : list event * (option NewsAPIResponse * option error) :=
  run (
    Printf (banner queryRaw idiomasCSV fechaInicio fechaFin);;
    req ← try (NewRequest net "GET"
                 (fullURL n queryRaw idiomasCSV fechaInicio fechaFin pageSize))
              (λ err, (None, Some err));
    let req := set_header "X-Api-Key" (APIKey n) req in
    let req := set_header "User-Agent" "EthicalCrawlerNews/1.0" req in
    resp ← Do net req (λ err, (None, Some ("error en petición: " +:+ err)));
    body ← ReadAll resp
             (λ err, (None, Some ("error leyendo respuesta: " +:+ err)));
    apiResp ← Decode body (λ err, (None, Some (decode_error err body)));
    if bool_decide (Status apiResp ≠ "ok") then
      Return (None, Some (status_error (Status apiResp) body))
    else
      mret (Some apiResp, None)).

(** The request [BuscarArticulos] sends once the URL is accepted, with
    its two headers set. *)
Definition request (n : NewsAPICrawler)
    (queryRaw idiomasCSV fechaInicio fechaFin : string) (pageSize : Z) : Request :=
  set_header "User-Agent" "EthicalCrawlerNews/1.0"
    (set_header "X-Api-Key" (APIKey n)
       (mkRequest "GET"
          (fullURL n queryRaw idiomasCSV fechaInicio fechaFin pageSize) ∅)).

(** The counting loop of [ExplorarDatosNewsAPI]. *)
Definition fuentes (response : NewsAPIResponse) : gmap string Z :=
  count_by (λ art, Name (Source art)) (Articles response).

(** [topFuentes := getTopN(fuentes, 10)]. *)
Definition topFuentes (response : NewsAPIResponse) (final : frame) : Prop :=
  getTopN (fuentes response) 10 final.

(** The records of the ranking scenario: six articles whose sources are
    A, B, A, C, A, B. *)
Definition article_from (name : string) : NewsAPIArticle :=
  mkArticle (mkSource name) "" "" "" 0 "".

Definition scenario : NewsAPIResponse :=
  mkNewsAPIResponse "ok" 6 (article_from <$> ["A"; "B"; "A"; "C"; "A"; "B"]).

End NewsAPI.

(* ===================================================================== *)
(** * gdelt_crawler.go: the GDELT collector                               *)
(* ===================================================================== *)

Module GDELT.

Record GDELTArticle : Type := mkArticle {
  URL : string;
  URLMobile : string;
  Title : string;
  SeenDate : string;
  SocialImg : string;
  Domain : string;
  Language : string;
  SourceCountry : string;
}.

Record GDELTResponse : Type := mkGDELTResponse {
  Articles : list GDELTArticle;
}.

Record GDELTCrawler : Type := mkCrawler {
  BaseURL : string;
  Client : HTTPClient;
}.


(** Step 1: one [sourceLang:] filter per language, joined by [OR], and
    the query that combines it with the caller's phrase. *)
Definition langFilters (idiomas : list string) : list string :=
  (λ lang, "sourceLang:" +:+ lang) <$> idiomas.

Definition finalQuery (queryRaw : string) (idiomas : list string) : string :=
  "(" +:+ queryRaw +:+ ") AND (" +:+ Join (langFilters idiomas) " OR " +:+ ")".

Definition params (queryRaw : string) (idiomas : list string)
    (fechaInicio fechaFin : string) (maxRecords : Z) : Values :=
  Values_Add "enddatetime" fechaFin
    (Values_Add "startdatetime" fechaInicio
       (Values_Add "format" "json"
          (Values_Add "maxrecords" (Sprintf_d maxRecords)
             (Values_Add "mode" "artlist"
                (Values_Add "query" (finalQuery queryRaw idiomas) ∅))))).

Definition fullURL (g : GDELTCrawler) (queryRaw : string) (idiomas : list string)
    (fechaInicio fechaFin : string) (maxRecords : Z) : string :=
  BaseURL g +:+ "?" +:+
  Values_Encode (params queryRaw idiomas fechaInicio fechaFin maxRecords).

(** [fmt.Printf("Consultando GDELT...\nQuery: %s\nRango: %s - %s\n", ...)]. *)
Definition banner (queryRaw : string) (idiomas : list string)
    (fechaInicio fechaFin : string) : string :=
  "Consultando GDELT..." +:+ nl +:+
  "Query: " +:+ finalQuery queryRaw idiomas +:+ nl +:+
  "Rango: " +:+ fechaInicio +:+ " - " +:+ fechaFin +:+ nl.

(** [fmt.Errorf("error HTTP: status code %d, body: %s", resp.StatusCode, string(body))]. *)
Definition http_error (code : Z) (body : string) : error :=
  "error HTTP: status code " +:+ Sprintf_d code +:+ ", body: " +:+ body.

(** [fmt.Errorf("error parseando JSON: %w. \nRespuesta recibida (Inicio):\n%s", err, preview)]. *)
Definition decode_error (err body : string) : error :=
  "error parseando JSON: " +:+ err +:+ ". " +:+ nl +:+
  "Respuesta recibida (Inicio):" +:+ nl +:+ preview body.

Definition BuscarArticulosMultiLang `{!JSON GDELTResponse} (net : Network)
    (g : GDELTCrawler) (queryRaw : string) (idiomas : list string)
    (fechaInicio fechaFin : string) (maxRecords : Z)
    : list event * (option GDELTResponse * option error) :=
  run (
    Printf (banner queryRaw idiomas fechaInicio fechaFin);;
    req ← try (NewRequest net "GET"
                 (fullURL g queryRaw idiomas fechaInicio fechaFin maxRecords))
              (λ err, (None, Some err));
    let req := set_header "User-Agent" "EthicalCrawler/1.0 (StudentResearch)" req in
    resp ← Do net req (λ err, (None, Some ("error en petición: " +:+ err)));
    body ← ReadAll resp
             (λ err, (None, Some ("error leyendo respuesta: " +:+ err)));
    if bool_decide (StatusCode resp ≠ StatusOK) then
      Return (None, Some (http_error (StatusCode resp) body))
    else
      gdeltResp ← Decode body (λ err, (None, Some (decode_error err body)));
      mret (Some gdeltResp, None)).

(** The request [BuscarArticulosMultiLang] sends once the URL is
    accepted. *)
Definition request (g : GDELTCrawler) (queryRaw : string) (idiomas : list string)
    (fechaInicio fechaFin : string) (maxRecords : Z) : Request :=
  set_header "User-Agent" "EthicalCrawler/1.0 (StudentResearch)"
    (mkRequest "GET"
       (fullURL g queryRaw idiomas fechaInicio fechaFin maxRecords) ∅).

(** The counting loop of [ExplorarDatos]. *)
Definition dominios (response : GDELTResponse) : gmap string Z :=
  count_by Domain (Articles response).

Definition idiomas (response : GDELTResponse) : gmap string Z :=
  count_by Language (Articles response).

Definition paises (response : GDELTResponse) : gmap string Z :=
  count_by SourceCountry (Articles response).

(** [topDominios := getTopN(dominios, 10)]. *)
Definition topDominios (response : GDELTResponse) (final : frame) : Prop :=
  getTopN (dominios response) 10 final.

End GDELT.

(* ===================================================================== *)
(** * The Guardian collector                                              *)
(* ===================================================================== *)

Module Guardian.

Record GuardianArticle : Type := mkArticle {
  ID : string;
  Type_ : string;
  SectionName : string;
  WebTitle : string;
  WebUrl : string;
  WebPublicationDate : Time;
}.

(** The anonymous struct under the [response] key. *)
Record GuardianResponseBody : Type := mkBody {
  Status : string;
  Total : Z;
  PageSize : Z;
  CurrentPage : Z;
  Pages : Z;
  Results : list GuardianArticle;
}.

Record GuardianResponse : Type := mkGuardianResponse {
  Response : GuardianResponseBody;
}.

Record GuardianCrawler : Type := mkCrawler {
  BaseURL : string;
  Client : HTTPClient;
  APIKey : string;
}.

Definition NewGuardianCrawler (apiKey : string) : GuardianCrawler :=
  {| BaseURL := "https://content.guardianapis.com/search";
     Client := {| Timeout := 20 |};
     APIKey := apiKey |}.

(** Step 1: [OR] becomes [|], then the double quotes are dropped. *)
Definition finalQuery (queryRaw : string) : string :=
  ReplaceAll (ReplaceAll queryRaw "OR" "|") dquote "".

Definition params (g : GuardianCrawler) (queryRaw fechaInicio fechaFin : string)
    (pageSize : Z) : Values :=
  Values_Add "to-date" fechaFin
    (Values_Add "from-date" fechaInicio
       (Values_Add "page-size" (Sprintf_d pageSize)
          (Values_Add "type" "article"
             (Values_Add "q" (finalQuery queryRaw)
                (Values_Add "api-key" (APIKey g) ∅))))).

Definition fullURL (g : GuardianCrawler) (queryRaw fechaInicio fechaFin : string)
    (pageSize : Z) : string :=
  BaseURL g +:+ "?" +:+
  Values_Encode (params g queryRaw fechaInicio fechaFin pageSize).

(** [fmt.Printf("Consultando The Guardian...\nQuery: %s\nRango: %s a %s\n", ...)]. *)
Definition banner (queryRaw fechaInicio fechaFin : string) : string :=
  "Consultando The Guardian..." +:+ nl +:+
  "Query: " +:+ finalQuery queryRaw +:+ nl +:+
  "Rango: " +:+ fechaInicio +:+ " a " +:+ fechaFin +:+ nl.

(** [fmt.Errorf("error HTTP: status code %d, body: %s", resp.StatusCode, string(body))]. *)
Definition http_error (code : Z) (body : string) : error :=
  "error HTTP: status code " +:+ Sprintf_d code +:+ ", body: " +:+ body.

(** [fmt.Errorf("error parseando JSON: %w. Respuesta recibida (Inicio):\n%s", err, preview)]. *)
Definition decode_error (err body : string) : error :=
  "error parseando JSON: " +:+ err +:+
  ". Respuesta recibida (Inicio):" +:+ nl +:+ preview body.

(** [fmt.Errorf("error de Guardian API (Status: %s).", status)]. *)
Definition status_error (status : string) : error :=
  "error de Guardian API (Status: " +:+ status +:+ ").".

Definition BuscarArticulos `{!JSON GuardianResponse} (net : Network)
    (g : GuardianCrawler) (queryRaw fechaInicio fechaFin : string) (pageSize : Z)
    : list event * (option GuardianResponse * option error) :=
  run (
    Printf (banner queryRaw fechaInicio fechaFin);;
    resp ← Get net (fullURL g queryRaw fechaInicio fechaFin pageSize)
             (λ err, (None, Some ("error en petición: " +:+ err)));
    body ← ReadAll resp
             (λ err, (None, Some ("error leyendo respuesta: " +:+ err)));
    if bool_decide (StatusCode resp ≠ StatusOK) then
      Return (None, Some (http_error (StatusCode resp) body))
    else
      apiResp ← Decode body (λ err, (None, Some (decode_error err body)));
      if bool_decide (Status (Response apiResp) ≠ "ok") then
        Return (None, Some (status_error (Status (Response apiResp))))
      else
        mret (Some apiResp, None)).

(** The request [client.Get] sends once the URL is accepted. *)
Definition request (g : GuardianCrawler) (queryRaw fechaInicio fechaFin : string)
    (pageSize : Z) : Request :=
  mkRequest "GET" (fullURL g queryRaw fechaInicio fechaFin pageSize) ∅.

(** The counting loop of [ExplorarDatosGuardian]. *)
Definition secciones (response : GuardianResponse) : gmap string Z :=
  count_by SectionName (Results (Response response)).

(** [topSecciones := getTopN(secciones, 5)]. *)
Definition topSecciones (response : GuardianResponse) (final : frame) : Prop :=
  getTopN (secciones response) 5 final.

(** The rows of the ranking:
    [Printf("  %2d. %-20s (%d artículos)\n", i+1, item.Key, item.Value)]. *)
Definition print_rows (RuneCount : string → nat) (top : list KeyValue)
    : list event :=
  imap (λ i item,
          EvPrintf ("  " +:+ Sprintf_2d (Z.of_nat i + 1) +:+ ". " +:+
                    Sprintf_left RuneCount 20 (Key item) +:+ " (" +:+
                    Sprintf_d (Value item) +:+ " artículos)" +:+ nl)) top.

(** The sample loop:
    [for i, art := range respData.Results { if i >= 5 { break } ... }].
    [Format] stands for [time.Time.Format], layout first. *)
Definition print_article (Format : string → Time → string) (i : nat)
    (art : GuardianArticle) : list event :=
  [EvPrintf (nl +:+ "  " +:+ Sprintf_d (Z.of_nat i + 1) +:+ ". Título: " +:+
             WebTitle art +:+ nl);
   EvPrintf ("      Sección: " +:+ SectionName art +:+ nl);
   EvPrintf ("      Publicado: " +:+
             Format "2006-01-02" (WebPublicationDate art) +:+ nl);
   EvPrintf ("      URL: " +:+ WebUrl art +:+ nl)].

Fixpoint sample_loop (Format : string → Time → string) (i : nat)
    (results : list GuardianArticle) : list event :=
  match results with
  | [] => []
  | art :: rest =>
      if bool_decide (5 ≤ i)%nat then []
      else print_article Format i art ++ sample_loop Format (S i) rest
  end.

(** [ExplorarDatosGuardian]: what a call can print, and how it ends.
    The first statement reads [response.Response] with no test for nil,
    so the nil response ([None]) panics.  The ranking is one of the
    outcomes of [getTopN], called after its heading is printed. *)
Definition ExplorarDatosGuardian (Format : string → Time → string)
    (RuneCount : string → nat) (response : option GuardianResponse)
    (out : list event) (ends : outcome unit) : Prop :=
  match response with
  | None => out = [] ∧ ends = Panics "nil pointer dereference"
  | Some r =>
      let respData := Response r in
      if bool_decide (length (Results respData) = 0%nat) then
        out = [EvPrintf (nl +:+ "--- EXPLORACIÓN DE DATOS ---" +:+ nl);
               EvPrintf ("No se encontraron artículos. Total de resultados reportados: " +:+
                         Sprintf_d (Total respData) +:+ nl)] ∧
        ends = Returns tt
      else
        let heading :=
          [EvPrintf (nl +:+ "--- EXPLORACIÓN DE DATOS - THE GUARDIAN ---" +:+ nl);
           EvPrintf ("Total de artículos encontrados (en el archivo): " +:+
                     Sprintf_d (Total respData) +:+ nl);
           EvPrintf ("Artículos recuperados (página): " +:+
                     Sprintf_d (Z.of_nat (length (Results respData))) +:+ nl +:+ nl);
           EvPrintf ("Top 5 Secciones:" +:+ nl)] in
        ∃ final, topSecciones r final ∧
          match result final with
          | Panics msg => out = heading ∧ ends = Panics msg
          | Returns top =>
              out = heading ++ print_rows RuneCount top ++
                    [EvPrintf (nl +:+ "Primeros 5 Artículos de Muestra:" +:+ nl)] ++
                    sample_loop Format 0 (Results respData) ∧
              ends = Returns tt
          end
  end.

(** The report of the run that can be executed (see [getTopN_exec]),
    for a response with results. *)
Definition report_exec (Format : string → Time → string)
    (RuneCount : string → nat) (r : GuardianResponse) : list event :=
  [EvPrintf (nl +:+ "--- EXPLORACIÓN DE DATOS - THE GUARDIAN ---" +:+ nl);
   EvPrintf ("Total de artículos encontrados (en el archivo): " +:+
             Sprintf_d (Total (Response r)) +:+ nl);
   EvPrintf ("Artículos recuperados (página): " +:+
             Sprintf_d (Z.of_nat (length (Results (Response r)))) +:+ nl +:+ nl);
   EvPrintf ("Top 5 Secciones:" +:+ nl)] ++
  print_rows RuneCount
    (match result (getTopN_exec (secciones r) 5) with
     | Returns top => top
     | Panics _ => []
     end) ++
  [EvPrintf (nl +:+ "Primeros 5 Artículos de Muestra:" +:+ nl)] ++
  sample_loop Format 0 (Results (Response r)).

(** [main].  The API key is the constant of the source. *)
Definition main `{!JSON GuardianResponse} (net : Network)
    (Format : string → Time → string) (RuneCount : string → nat)
    (apiKey : string) (out : list event) (ends : outcome unit) : Prop :=
  let crawler := NewGuardianCrawler apiKey in
  let query := "Universidad de Antioquia OR UdeA" in
  let fechaInicio := "2023-01-01" in
  let fechaFin := "2023-12-31" in
  let pageSize := 50 in
  let search := BuscarArticulos net crawler query fechaInicio fechaFin pageSize in
  match search.2.2 with
  | Some err =>
      out = search.1 ++
            [EvPrintf (nl +:+ "--- [ERROR FATAL] ---" +:+ nl);
             EvPrintf ("Error: " +:+ err +:+ nl)] ∧
      ends = Returns tt
  | None =>
      ∃ report report_ends,
        ExplorarDatosGuardian Format RuneCount search.2.1 report report_ends ∧
        match report_ends with
        | Panics msg => out = search.1 ++ report ∧ ends = Panics msg
        | Returns _ =>
            out = search.1 ++ report ++
                  [EvPrintf (nl +:+ "Exploración completada." +:+ nl)] ∧
            ends = Returns tt
        end
  end.

End Guardian.

(* ===================================================================== *)
(** * The X (recent search) collector                                     *)
(* ===================================================================== *)

Module X.

Record PublicMetrics : Type := mkMetrics {
  RetweetCount : Z;
  LikeCount : Z;
  ReplyCount : Z;
  QuoteCount : Z;
}.

Record Tweet : Type := mkTweet {
  ID : string;
  Text : string;
  CreatedAt : Time;
  Metrics : PublicMetrics;
}.

Record XMeta : Type := mkMeta {
  NewestID : string;
  OldestID : string;
  ResultCount : Z;
  NextToken : string;
}.

Record XResponse : Type := mkXResponse {
  Data : list Tweet;
  Meta : XMeta;
}.

Record XCrawler : Type := mkCrawler {
  BaseURL : string;
  Client : HTTPClient;
  BearerToken : string;
}.

Definition NewXCrawler (bearerToken : string) : XCrawler :=
  {| BaseURL := "https://api.twitter.com/2/tweets/search/recent";
     Client := {| Timeout := 20 |};
     BearerToken := bearerToken |}.

Definition finalQuery (queryRaw : string) : string :=
  "(" +:+ queryRaw +:+ ") investigación lang:es -is:retweet".

Definition params (queryRaw : string) (maxResults : Z)
    (startTime endTime : string) : Values :=
  Values_Add "end_time" endTime
    (Values_Add "start_time" startTime
       (Values_Add "max_results" (Sprintf_d maxResults)
          (Values_Add "tweet.fields" "created_at,public_metrics"
             (Values_Add "query" (finalQuery queryRaw) ∅)))).

Definition fullURL (x : XCrawler) (queryRaw : string) (maxResults : Z)
    (startTime endTime : string) : string :=
  BaseURL x +:+ "?" +:+ Values_Encode (params queryRaw maxResults startTime endTime).

(** [fmt.Printf("Consultando X (Reciente)...\nQuery: %s\nRango: %s a %s\n", ...)]. *)
Definition banner (queryRaw startTime endTime : string) : string :=
  "Consultando X (Reciente)..." +:+ nl +:+
  "Query: " +:+ finalQuery queryRaw +:+ nl +:+
  "Rango: " +:+ startTime +:+ " a " +:+ endTime +:+ nl.

(** [fmt.Errorf("error HTTP: status code %d. Respuesta de X:\n%s", resp.StatusCode, string(body))]. *)
Definition http_error (code : Z) (body : string) : error :=
  "error HTTP: status code " +:+ Sprintf_d code +:+
  ". Respuesta de X:" +:+ nl +:+ body.

(** [fmt.Errorf("error parseando JSON: %w. Respuesta recibida:\n%s", err, preview)]. *)
Definition decode_error (err body : string) : error :=
  "error parseando JSON: " +:+ err +:+
  ". Respuesta recibida:" +:+ nl +:+ preview body.

Definition BuscarTweets `{!JSON XResponse} (net : Network) (x : XCrawler)
    (queryRaw : string) (maxResults : Z) (startTime endTime : string)
    : list event * (option XResponse * option error) :=
  run (
    Printf (banner queryRaw startTime endTime);;
    req ← try (NewRequest net "GET"
                 (fullURL x queryRaw maxResults startTime endTime))
              (λ err, (None, Some err));
    let req := set_header "Authorization" ("Bearer " +:+ BearerToken x) req in
    let req := set_header "User-Agent" "EthicalXCrawler/1.0 (StudentResearch)" req in
    resp ← Do net req (λ err, (None, Some ("error en petición: " +:+ err)));
    body ← ReadAll resp
             (λ err, (None, Some ("error leyendo respuesta: " +:+ err)));
    if bool_decide (StatusCode resp ≠ StatusOK) then
      Return (None, Some (http_error (StatusCode resp) body))
    else
      apiResp ← Decode body (λ err, (None, Some (decode_error err body)));
      mret (Some apiResp, None)).

(** The request [BuscarTweets] sends once the URL is accepted. *)
Definition request (x : XCrawler) (queryRaw : string) (maxResults : Z)
    (startTime endTime : string) : Request :=
  set_header "User-Agent" "EthicalXCrawler/1.0 (StudentResearch)"
    (set_header "Authorization" ("Bearer " +:+ BearerToken x)
       (mkRequest "GET" (fullURL x queryRaw maxResults startTime endTime) ∅)).

(** The sample loop of [ExplorarDatosX]:
    [for i, tweet := range response.Data { if i >= 5 { break } ... }].
    [Format] stands for [time.Time.Format], layout first. *)
Definition print_tweet (Format : string → Time → string) (i : nat)
    (tweet : Tweet) : list event :=
  [EvPrintf (nl +:+ "  " +:+ Sprintf_d (Z.of_nat i + 1) +:+ ". ID: " +:+
             ID tweet +:+ nl);
   EvPrintf ("      Fecha: " +:+ Format "2006-01-02 15:04" (CreatedAt tweet) +:+ nl);
   EvPrintf ("      Compartidos/Retweets: " +:+
             Sprintf_d (RetweetCount (Metrics tweet)) +:+ nl);
   EvPrintf ("      Likes: " +:+ Sprintf_d (LikeCount (Metrics tweet)) +:+
             " | Respuestas: " +:+ Sprintf_d (ReplyCount (Metrics tweet)) +:+ nl);
   EvPrintf ("      Texto: " +:+ Text tweet +:+ nl)].

Fixpoint sample_loop (Format : string → Time → string) (i : nat)
    (data : list Tweet) : list event :=
  match data with
  | [] => []
  | tweet :: rest =>
      if bool_decide (5 ≤ i)%nat then []
      else print_tweet Format i tweet ++ sample_loop Format (S i) rest
  end.

(** [ExplorarDatosX]; [None] is the nil response. *)
Definition ExplorarDatosX (Format : string → Time → string)
    (response : option XResponse) : list event :=
  match response with
  | Some r =>
      if bool_decide (ResultCount (Meta r) = 0) then
        [EvPrintf (nl +:+ "--- EXPLORACIÓN DE DATOS X ---" +:+ nl);
         EvPrintf ("No se encontraron tweets que coincidan con la búsqueda." +:+ nl)]
      else
        [EvPrintf (nl +:+ "--- EXPLORACIÓN DE DATOS - X (Últimos 7 Días) ---" +:+ nl);
         EvPrintf ("Total de tweets encontrados: " +:+
                   Sprintf_d (ResultCount (Meta r)) +:+ nl);
         EvPrintf ("Tweets recuperados: " +:+
                   Sprintf_d (Z.of_nat (length (Data r))) +:+ nl +:+ nl);
         EvPrintf ("Primeros 5 Tweets de Muestra:" +:+ nl)]
        ++ sample_loop Format 0 (Data r)
  | None =>
      [EvPrintf (nl +:+ "--- EXPLORACIÓN DE DATOS X ---" +:+ nl);
       EvPrintf ("No se encontraron tweets que coincidan con la búsqueda." +:+ nl)]
  end.

(** [main].  The bearer token is the constant of the source; [startTime]
    and [endTime] are what the clock and [Format] give for seven days
    ago and for one minute ago. *)
Definition main `{!JSON XResponse} (net : Network)
    (Format : string → Time → string) (bearerToken startTime endTime : string)
    : list event :=
  let crawler := NewXCrawler bearerToken in
  let query := dquote +:+ "Universidad de Antioquia" +:+ dquote +:+ " OR UdeA" in
  let maxResults := 50 in
  let '(trace, (response, err)) :=
    BuscarTweets net crawler query maxResults startTime endTime in
  match err with
  | Some err =>
      trace ++
      [EvPrintf (nl +:+ "--- [ERROR FATAL X] ---" +:+ nl);
       EvPrintf ("Error: " +:+ err +:+ nl)]
  | None =>
      trace ++ ExplorarDatosX Format response ++
      [EvPrintf (nl +:+ "Exploración completada." +:+ nl)]
  end.

End X.

(* ===================================================================== *)
(** * main.go: the RSS reader                                             *)
(* ===================================================================== *)

Module RSS.

(** What the reader writes: lines on standard output ([fmt.Println]) and
    on the standard logger ([log.Println], whose time stamp is left
    out). *)
Inductive output : Type :=
| Stdout (line : string)
| Stderr (line : string).

(** A program that writes and may panic. *)
Definition Prog (A : Type) : Type := list output * outcome A.

#[global] Instance Prog_ret : MRet Prog := λ A a, ([], Returns a).
#[global] Instance Prog_bind : MBind Prog := λ A B f c,
  match c.2 with
  | Panics msg => (c.1, Panics msg)
  | Returns a => ((c.1 ++ (f a).1)%list, (f a).2)
  end.

(** [fmt.Println(args...)]: the operands separated by spaces, then a
    newline. *)
Definition Println (args : list string) : Prog unit :=
  ([Stdout (Join args " " +:+ nl)], Returns tt).

Definition log_Println (args : list string) : Prog unit :=
  ([Stderr (Join args " " +:+ nl)], Returns tt).

Definition skip : Prog unit := mret tt.

(** How [Println] shows a [[]string]. *)
Definition show_strings (l : list string) : string :=
  "[" +:+ Join l " " +:+ "]".

(** [for _, x := range l { body }]. *)
Fixpoint for_each {A : Type} (l : list A) (body : A → Prog unit) : Prog unit :=
  match l with
  | [] => skip
  | x :: rest => body x;; for_each rest body
  end.

(** [l[i]]. *)
Definition index {A : Type} (l : list A) (i : nat) : Prog A :=
  match l !! i with
  | Some x => mret x
  | None => ([], Panics "index out of range")
  end.

(** The helper of main.go:
<<
    func truncate(s string, max int) string {
        if len(s) <= max { return s }
        return s[:max] + "..."
    }
>>
    The slice expression [s[:max]] panics unless [0 <= max <= len(s)]. *)
Definition truncate (s : string) (max : Z) : outcome string :=
  if bool_decide (len s ≤ max) then Returns s
  else if bool_decide (0 ≤ max ≤ len s)
       then Returns (slice_string_to s (Z.to_nat max) +:+ "...")
       else Panics "slice bounds out of range".

(** The parts of gofeed's [Item] and [Feed] that [main] reads; the
    pointers [Author] and [Image] may be nil. *)
Record Person : Type := mkPerson { Name : string }.
Record Image_ : Type := mkImage { ImageURL : string }.
Record Enclosure : Type := mkEnclosure { EnclosureURL : string }.

Record Item : Type := mkItem {
  Title : string;
  Link : string;
  Published : string;
  Description : string;
  Categories : list string;
  Author : option Person;
  Image : option Image_;
  Enclosures : list Enclosure;
}.

Record Feed : Type := mkFeed {
  FeedTitle : string;
  FeedDescription : string;
  Items : list Item;
}.

(** [parser.ParseURL(url)]: the feed, or the error of the download or of
    the parse. *)
Definition Parser : Type := string → error + Feed.

Definition feeds : list string :=
  ["https://www.eltiempo.com/rss/eltiempo.xml";
   "https://www.larepublica.co/rss";
   "https://feeds.bbci.co.uk/news/rss.xml";
   "https://rss.nytimes.com/services/xml/rss/nyt/HomePage.xml";
   "https://www.theguardian.com/world/rss"].

(** The body of the inner loop, for the item [item]. *)
Definition print_item (item : Item) : Prog unit :=
  Println ["---------------"];;
  Println ["Title:"; Title item];;
  Println ["Link:"; Link item];;
  Println ["Published:"; Published item];;
  description ← ([], truncate (Description item) 120);
  Println ["Description:"; description];;
  (if bool_decide (0 < length (Categories item))%nat
   then Println ["Categories:"; show_strings (Categories item)] else skip);;
  (match Author item with
   | Some author => Println ["Author:"; Name author]
   | None => skip
   end);;
  (match Image item with
   | Some image => Println ["Image (via Image struct):"; ImageURL image]
   | None => skip
   end);;
  (if bool_decide (0 < length (Enclosures item))%nat
   then enclosure ← index (Enclosures item) 0;
        Println ["Enclosure:"; EnclosureURL enclosure]
   else skip).

(** [limit := 3; if len(feed.Items) < limit { limit = len(feed.Items) }]. *)
Definition limit (feed : Feed) : nat :=
  if bool_decide (length (Items feed) < 3)%nat then length (Items feed) else 3%nat.

(** The body of the outer loop, for the feed at [url]. *)
Definition report (parser : Parser) (url : string) : Prog unit :=
  Println ["==============================================="];;
  Println ["FEED:"; url];;
  Println ["==============================================="];;
  match parser url with
  | inl err => log_Println ["Error al leer feed:"; url; err]
  | inr feed =>
      Println ["Título del canal:"; FeedTitle feed];;
      Println ["Descripción:"; FeedDescription feed];;
      Println ["Primeros 3 artículos:"];;
      for_each (seq 0 (limit feed))
        (λ i, item ← index (Items feed) i; print_item item)
  end.

Definition main (parser : Parser) : Prog unit :=
  for_each feeds (report parser).

(** The lines written to the logger, and the items a run has printed
    (one separator line each). *)
Definition logged (out : list output) : list string :=
  omap (λ o, match o with Stderr line => Some line | _ => None end) out.

Definition printed (out : list output) : list string :=
  omap (λ o, match o with Stdout line => Some line | _ => None end) out.

End RSS.

(* ===================================================================== *)
(** * Worlds in which the collectors can be run                           *)
(* ===================================================================== *)

(** A server that accepts every URL and answers every request with the
    status [code] and the body [body]. *)
Definition server (code : Z) (body : string) : Network :=
  mkNetwork (λ _, None) (λ _, inr (mkResponse code (inr body))).

(** A decoder that yields [v], and one that rejects its input. *)
Definition decodes_to {T : Type} (v : T) : JSON T := λ _, inr v.

(** The body [{"status":"ok"}] and what NewsAPI's decoder makes of it. *)
Definition ok_body : string :=
  "{" +:+ dquote +:+ "status" +:+ dquote +:+ ":" +:+ dquote +:+ "ok" +:+ dquote +:+ "}".

Definition ok_payload : NewsAPI.NewsAPIResponse :=
  NewsAPI.mkNewsAPIResponse "ok" 0 [].

(** The body [{"status":"error"}], decoded. *)
Definition error_body : string :=
  "{" +:+ dquote +:+ "status" +:+ dquote +:+ ":" +:+ dquote +:+ "error" +:+ dquote +:+ "}".

Definition error_payload : NewsAPI.NewsAPIResponse :=
  NewsAPI.mkNewsAPIResponse "error" 0 [].

(** A body that is not JSON: 606 bytes of markup. *)
Definition html_body : string := Join (replicate 101 "<html>") "".


(** A response of X with six tweets, and a layout function that shows
    the instant as a number. *)
Definition six_tweets : X.XResponse :=
  X.mkXResponse
    ((λ id, X.mkTweet id "UdeA" 0 (X.mkMetrics 1 2 3 4)) <$>
       ["1"; "2"; "3"; "4"; "5"; "6"])
    (X.mkMeta "6" "1" 6 "").

Definition show_instant (layout : string) (t : Time) : string := Sprintf_d t.

(** A response of the Guardian with three results in two sections. *)
Definition three_results : Guardian.GuardianResponse :=
  Guardian.mkGuardianResponse
    (Guardian.mkBody "ok" 3 50 1 1
       ((λ section, Guardian.mkArticle "id" "article" section "UdeA"
                      "https://example.org" 0) <$> ["World"; "Science"; "World"])).

(** A feed with four items, and a parser that reads it from two of the
    five addresses and fails on the others. *)
Definition four_items : RSS.Feed :=
  RSS.mkFeed "El Tiempo" "Noticias"
    ((λ title, RSS.mkItem title "https://example.org" "hoy" "texto"
                 ["a"; "b"] None None []) <$> ["uno"; "dos"; "tres"; "cuatro"]).

Definition flaky_parser : RSS.Parser :=
  λ url, if String.prefix "https://www.e" url || String.prefix "https://feeds" url
         then inr four_items else inl "timeout".

(** The arguments [main] passes in news_crawler.go, with fixed dates. *)
Definition main_query : string :=
  dquote +:+ "Universidad de Antioquia" +:+ dquote +:+ " OR UdeA".

Definition main_run (json : JSON NewsAPI.NewsAPIResponse) (net : Network)
    : list event * (option NewsAPI.NewsAPIResponse * option error) :=
  @NewsAPI.BuscarArticulos json net
    (NewsAPI.NewNewsAPICrawler "api-key")
    main_query "es,en" "2023-01-01T00:00:00" "2023-01-31T00:00:00" 50.

(* ===================================================================== *)
(** * What the callers rely on                                            *)
(* ===================================================================== *)

(** The convention every [main] relies on when it tests [err != nil] and
    then hands the result to [ExplorarDatos]: a result or an error,
    never both and never neither. *)
Definition result_or_error {T : Type} (r : option T * option error) : Prop :=
  (is_Some r.1 ∧ r.2 = None) ∨ (r.1 = None ∧ is_Some r.2).

(** The number of bytes of [s] equal to [c]. *)
Fixpoint count_byte (c : ascii) (s : string) : nat :=
  match s with
  | EmptyString => 0
  | String d rest => (if Ascii.eqb c d then 1 else 0) + count_byte c rest
  end%nat.

(** The bytes [url.QueryEscape] can produce: the unreserved ones, and
    [%] and [+]. *)
Definition query_safe (c : ascii) : bool :=
  negb (shouldEscape c) || Ascii.eqb c "%"%char || Ascii.eqb c "+"%char.

Fixpoint all_bytes (P : ascii → bool) (s : string) : bool :=
  match s with
  | EmptyString => true
  | String c rest => P c && all_bytes P rest
  end.

(* ===================================================================== *)
(** * Properties of [getTopN]                                             *)
(* ===================================================================== *)

Section Ranking.

Implicit Types (m : gmap string Z) (n : Z) (l : list KeyValue).

Lemma append_all_app l (order : list (string * Z)) :
  append_all l order = l ++ (as_KeyValue <$> order).
Proof.
  revert l. induction order as [|kv order IH]; intros l; simpl.
  - by rewrite app_nil_r.
  - rewrite IH. by rewrite <- app_assoc.
Qed.

Lemma in_order_le a b : in_order a b ↔ Value b ≤ Value a.
Proof.
  unfold in_order, less. rewrite bool_decide_eq_false. lia.
Qed.

#[local] Instance in_order_trans : Transitive in_order.
Proof. intros a b c. rewrite !in_order_le. lia. Qed.

#[local] Instance in_order_total : Total in_order.
Proof.
  intros a b. rewrite !in_order_le. lia.
Qed.

(** What every run looks like once the three statements are unfolded. *)
Lemma getTopN_inv m n final :
  getTopN m n final →
  ∃ sorted,
    sorted ≡ₚ (as_KeyValue <$> map_to_list m) ∧
    Sorted in_order sorted ∧
    final = clamp_step (mkFrame m n sorted []).
Proof.
  intros (s1 & s2 & (order & Hord & ->) & (sorted & [Hperm Hsorted] & ->) & ->).
  simpl in *. exists sorted. split_and!; [|done..].
  rewrite Hperm, append_all_app. simpl. by rewrite Hord.
Qed.

(** The executable run is one of the runs. *)
Lemma getTopN_exec_run m n : getTopN m n (getTopN_exec m n).
Proof.
  unfold getTopN, getTopN_exec.
  exists (mkFrame m n (append_all [] (map_to_list m)) []).
  exists (mkFrame m n (merge_sort in_order (append_all [] (map_to_list m))) []).
  split_and!.
  - by exists (map_to_list m).
  - exists (merge_sort in_order (append_all [] (map_to_list m))).
    split; [split|done]; simpl.
    + apply merge_sort_Permutation.
    + apply (Sorted_merge_sort in_order).
  - done.
Qed.

Lemma sorted_length m l :
  l ≡ₚ (as_KeyValue <$> map_to_list m) → length l = size m.
Proof.
  intros ->. by rewrite length_fmap, length_map_to_list.
Qed.

(** After the clamp the upper index is within the slice whenever the
    requested [n] is not negative. *)
Lemma clamp_step_bounds m n l :
  0 ≤ n →
  let s := clamp_step (mkFrame m n l []) in
  fr_kvList s = l ∧ fr_m s = m ∧ fr_out s = [] ∧
  fr_n s = Z.min n (Z.of_nat (length l)).
Proof.
  intros Hn. unfold clamp_step. simpl. case_bool_decide; simpl; split_and!; try done; lia.
Qed.

Lemma clamp_step_frame m n l :
  let s := clamp_step (mkFrame m n l []) in
  fr_kvList s = l ∧ fr_m s = m ∧ fr_out s = [].
Proof. unfold clamp_step. simpl. by case_bool_decide. Qed.

Lemma clamp_step_negative m n l :
  n < 0 → clamp_step (mkFrame m n l []) = mkFrame m n l [].
Proof. intros Hn. unfold clamp_step. simpl. case_bool_decide; [lia|done]. Qed.

Lemma slice_to_in_bounds {A} (s : list A) n :
  0 ≤ n ≤ Z.of_nat (length s) → slice_to s n = Returns (take (Z.to_nat n) s).
Proof. intros Hn. unfold slice_to. by rewrite bool_decide_eq_true_2. Qed.

Lemma slice_to_negative {A} (s : list A) n :
  n < 0 → slice_to s n = Panics "slice bounds out of range".
Proof. intros Hn. unfold slice_to. rewrite bool_decide_eq_false_2; [done|lia]. Qed.

(** A run with [n >= 0] returns the first [min n (size m)] entries of its
    sorted list. *)
Lemma getTopN_returns m n final :
  0 ≤ n → getTopN m n final →
  ∃ sorted,
    sorted ≡ₚ (as_KeyValue <$> map_to_list m) ∧
    Sorted in_order sorted ∧
    fr_m final = m ∧ fr_out final = [] ∧ fr_kvList final = sorted ∧
    fr_n final = Z.min n (Z.of_nat (size m)) ∧
    result final = Returns (take (Z.to_nat (Z.min n (Z.of_nat (size m)))) sorted).
Proof.
  intros Hn (sorted & Hperm & Hsorted & ->)%getTopN_inv.
  destruct (clamp_step_bounds m n sorted Hn) as (Hkv & Hm & Hout & Hn').
  rewrite (sorted_length _ _ Hperm) in Hn'.
  exists sorted. split_and!; try done.
  unfold result. rewrite Hkv, Hn'. apply slice_to_in_bounds.
  rewrite (sorted_length _ _ Hperm). lia.
Qed.

Lemma Sorted_non_increasing l : Sorted in_order l → non_increasing l.
Proof.
  intros Hs%(Sorted_StronglySorted _). induction Hs as [|x l Hs IH Hall].
  - intros i j a b _ Hi. by rewrite lookup_nil in Hi.
  - intros [|i] [|j] a b Hij Ha Hb; simpl in *; simplify_eq.
    + lia.
    + apply in_order_le. rewrite Forall_forall in Hall. apply Hall.
      by eapply list_elem_of_lookup_2.
    + lia.
    + eapply (IH i j); [lia|done..].
Qed.

Lemma non_increasing_take l k : non_increasing l → non_increasing (take k l).
Proof.
  intros Hl i j a b Hij Ha Hb.
  apply lookup_take_Some in Ha as [Ha _]. apply lookup_take_Some in Hb as [Hb _].
  by eapply Hl.
Qed.

(** C3. For the records with sources A, B, A, C, A, B the table of
    sources ranked with [n = 2] is exactly [("A",3); ("B",2)], in that
    order: a run exists, and every run returns this list whatever the
    iteration order of the map and the choices of the sort. *)
Theorem getTopN_scenario :
  getTopN (NewsAPI.fuentes NewsAPI.scenario) 2
    (getTopN_exec (NewsAPI.fuentes NewsAPI.scenario) 2) ∧
  ∀ final, getTopN (NewsAPI.fuentes NewsAPI.scenario) 2 final →
    result final = Returns [mkKeyValue "A" 3; mkKeyValue "B" 2].
Proof.
  split; [apply getTopN_exec_run|].
  intros final Hrun.
  destruct (getTopN_returns _ 2 final ltac:(lia) Hrun)
    as (sorted & Hperm & Hsorted & _ & _ & _ & _ & ->).
  set (ranked := [mkKeyValue "A" 3; mkKeyValue "B" 2; mkKeyValue "C" 1]).
  assert (Hall : sorted ≡ₚ ranked).
  { rewrite Hperm. apply (bool_decide_unpack _). by vm_compute. }
  assert (Hsize : size (NewsAPI.fuentes NewsAPI.scenario) = 3%nat) by by vm_compute.
  assert (sorted = ranked) as ->; [|by rewrite Hsize].
  apply (StronglySorted_unique_strong in_order); [|by apply (Sorted_StronglySorted _)| |done].
  - intros x1 x2 Hx1 Hx2. rewrite Hall in Hx1. revert Hx1 Hx2.
    unfold ranked. rewrite !elem_of_cons, !elem_of_nil, !in_order_le.
    intros [->|[->|[->|[]]]] [->|[->|[->|[]]]]; simpl; first [done|lia].
  - apply (bool_decide_unpack _). by vm_compute.
Qed.

Lemma getTopN_scenario_witness :
  result (getTopN_exec (NewsAPI.fuentes NewsAPI.scenario) 2)
    = Returns [mkKeyValue "A" 3; mkKeyValue "B" 2].
Proof.
  apply (proj2 getTopN_scenario
           (getTopN_exec (NewsAPI.fuentes NewsAPI.scenario) 2)).
  apply getTopN_exec_run.
Defined.

(** C4. For every map and every [n >= 0], [getTopN(m, n)] returns, and
    the counts of the returned entries do not increase from the first
    entry to the last. *)
Theorem getTopN_non_increasing m n :
  0 ≤ n →
  (∃ final, getTopN m n final) ∧
  ∀ final, getTopN m n final →
    ∃ l, result final = Returns l ∧ non_increasing l.
Proof.
  intros Hn. split; [exists (getTopN_exec m n); apply getTopN_exec_run|].
  intros final (sorted & _ & Hsorted & _ & _ & _ & _ & ->)%getTopN_returns; [|done].
  eexists. split; [done|].
  by apply non_increasing_take, Sorted_non_increasing.
Qed.

Lemma getTopN_non_increasing_witness :
  (∃ final, getTopN (NewsAPI.fuentes NewsAPI.scenario) 2 final) ∧
  ∀ final, getTopN (NewsAPI.fuentes NewsAPI.scenario) 2 final →
    ∃ l, result final = Returns l ∧ non_increasing l.
Proof. apply (getTopN_non_increasing (NewsAPI.fuentes NewsAPI.scenario) 2). lia. Defined.

(** C5. For every map and every [n >= 0], [getTopN(m, n)] returns a list
    of exactly [min n (number of keys of m)] entries: no padding and no
    error; the empty map gives the empty list for any such [n], and
    [n = 0] gives the empty list for any map. *)
Theorem getTopN_length m n :
  0 ≤ n →
  (∃ final, getTopN m n final) ∧
  ∀ final, getTopN m n final →
    ∃ l, result final = Returns l ∧
      Z.of_nat (length l) = Z.min n (Z.of_nat (size m)) ∧
      (m = ∅ → l = []) ∧ (n = 0 → l = []).
Proof.
  intros Hn. split; [exists (getTopN_exec m n); apply getTopN_exec_run|].
  intros final (sorted & Hperm & _ & _ & _ & _ & _ & ->)%getTopN_returns; [|done].
  apply sorted_length in Hperm.
  eexists. split; [done|].
  assert (Hlen : Z.of_nat (length (take (Z.to_nat (Z.min n (Z.of_nat (size m)))) sorted))
                 = Z.min n (Z.of_nat (size m))).
  { rewrite length_take, Hperm. lia. }
  split_and!; [done| |].
  - intros ->. rewrite map_size_empty in Hlen |- *.
    apply length_zero_iff_nil. lia.
  - intros ->. apply length_zero_iff_nil. lia.
Qed.

Lemma getTopN_length_witness :
  (∃ final, getTopN (NewsAPI.fuentes NewsAPI.scenario) 10 final) ∧
  ∀ final, getTopN (NewsAPI.fuentes NewsAPI.scenario) 10 final →
    ∃ l, result final = Returns l ∧
      Z.of_nat (length l) = Z.min 10 (Z.of_nat (size (NewsAPI.fuentes NewsAPI.scenario))) ∧
      (NewsAPI.fuentes NewsAPI.scenario = ∅ → l = []) ∧ (10 = 0 → l = []).
Proof. apply (getTopN_length (NewsAPI.fuentes NewsAPI.scenario) 10). lia. Defined.

(** C8. [getTopN] has no side effect: for every map and every [n >= 0],
    when the call returns the map object it was given holds the same
    keys with the same counts, nothing has been printed, and the call
    has not panicked. *)
Theorem getTopN_no_side_effects m n final :
  0 ≤ n → getTopN m n final →
  fr_m final = m ∧ fr_out final = [] ∧ ∃ l, result final = Returns l.
Proof.
  intros Hn (sorted & _ & _ & Hm & Hout & _ & _ & Hres)%getTopN_returns; [|done].
  split_and!; [done..|]. by eexists.
Qed.

Lemma getTopN_no_side_effects_witness :
  fr_m (getTopN_exec (NewsAPI.fuentes NewsAPI.scenario) 2)
    = NewsAPI.fuentes NewsAPI.scenario ∧
  fr_out (getTopN_exec (NewsAPI.fuentes NewsAPI.scenario) 2) = [] ∧
  ∃ l, result (getTopN_exec (NewsAPI.fuentes NewsAPI.scenario) 2) = Returns l.
Proof.
  apply (getTopN_no_side_effects _ 2); [lia|apply getTopN_exec_run].
Defined.

(** C10. Under [n >= 0] the slice step of [getTopN] is in bounds for
    every map: after the clamp [0 <= n <= len(kvList)], so the call
    returns and does not panic.  The guard does not cover [n < 0]: there
    the clamp leaves [n] as it is and the slice step panics. *)
Theorem getTopN_slice_in_bounds m n :
  (∃ final, getTopN m n final) ∧
  ∀ final, getTopN m n final →
    (0 ≤ n →
       0 ≤ fr_n final ≤ Z.of_nat (length (fr_kvList final)) ∧
       ∃ l, result final = Returns l) ∧
    (n < 0 → fr_n final = n ∧ ∃ msg, result final = Panics msg).
Proof.
  split; [exists (getTopN_exec m n); apply getTopN_exec_run|].
  intros final Hrun. split; intros Hn.
  - destruct (getTopN_returns m n final Hn Hrun)
      as (sorted & Hperm & _ & _ & _ & -> & -> & Hres).
    rewrite (sorted_length _ _ Hperm). split; [lia|by eexists].
  - apply getTopN_inv in Hrun as (sorted & _ & _ & ->).
    rewrite clamp_step_negative by done. split; [done|].
    unfold result. simpl. rewrite slice_to_negative by done. by eexists.
Qed.

Lemma getTopN_slice_in_bounds_witness :
  (0 ≤ fr_n (getTopN_exec (NewsAPI.fuentes NewsAPI.scenario) 10)
     ≤ Z.of_nat (length (fr_kvList (getTopN_exec (NewsAPI.fuentes NewsAPI.scenario) 10))) ∧
   ∃ l, result (getTopN_exec (NewsAPI.fuentes NewsAPI.scenario) 10) = Returns l) ∧
  (fr_n (getTopN_exec (NewsAPI.fuentes NewsAPI.scenario) (-1)) = -1 ∧
   ∃ msg, result (getTopN_exec (NewsAPI.fuentes NewsAPI.scenario) (-1)) = Panics msg).
Proof.
  split.
  - apply (proj2 (getTopN_slice_in_bounds (NewsAPI.fuentes NewsAPI.scenario) 10));
      [apply getTopN_exec_run|lia].
  - apply (proj2 (getTopN_slice_in_bounds (NewsAPI.fuentes NewsAPI.scenario) (-1)));
      [apply getTopN_exec_run|lia].
Defined.

(** What the executable run yields on the scenario for some requests. *)
Example getTopN_exec_scenario :
  result (getTopN_exec (NewsAPI.fuentes NewsAPI.scenario) 10)
    = Returns [mkKeyValue "A" 3; mkKeyValue "B" 2; mkKeyValue "C" 1] ∧
  result (getTopN_exec (NewsAPI.fuentes NewsAPI.scenario) 0) = Returns [] ∧
  result (getTopN_exec ∅ 5) = Returns [] ∧
  result (getTopN_exec (NewsAPI.fuentes NewsAPI.scenario) (-1))
    = Panics "slice bounds out of range".
Proof. by vm_compute. Qed.

End Ranking.

(* ===================================================================== *)
(** * Properties of the frequency table                                   *)
(* ===================================================================== *)

Section Counting.

Context {A : Type} (field : A → string).

Implicit Types (table : gmap string Z) (records : list A) (k : string).

Lemma wrap_in_range z : min_int ≤ z ≤ max_int → wrap z = z.
Proof.
  unfold wrap, min_int, max_int. intros Hz.
  rewrite Z.mod_small; lia.
Qed.

Lemma sum_counts_insert_fresh table k v :
  table !! k = None → sum_counts (<[k:=v]> table) = v + sum_counts table.
Proof.
  intros Hk. unfold sum_counts.
  rewrite map_fold_insert_L; [done| |done].
  intros. lia.
Qed.

Lemma sum_counts_insert_known table k v old :
  table !! k = Some old →
  sum_counts (<[k:=v]> table) = v + sum_counts table - old.
Proof.
  intros Hk.
  rewrite <- (insert_delete_eq table k v).
  rewrite sum_counts_insert_fresh by apply lookup_delete_eq.
  unfold sum_counts at 2.
  rewrite (map_fold_delete_L _ _ k old table); [fold (sum_counts (delete k table)); lia| |done].
  intros. lia.
Qed.

Lemma occurrences_snoc k records r :
  occurrences field k (records ++ [r]) =
  occurrences field k records + (if decide (field r = k) then 1 else 0).
Proof.
  unfold occurrences. rewrite filter_app, length_app.
  rewrite filter_cons, filter_nil. case_decide; simpl; lia.
Qed.

Lemma occurrences_bounds k records :
  0 ≤ occurrences field k records ≤ Z.of_nat (length records).
Proof.
  unfold occurrences.
  pose proof (length_filter (λ r, field r = k) records). lia.
Qed.

Lemma count_by_snoc records r :
  count_by field (records ++ [r]) = incr (count_by field records) (field r).
Proof. unfold count_by. by rewrite foldl_app. Qed.

(** Every key of the table holds the number of records with that field
    value, and a value that does not occur has no key. *)
Lemma count_by_lookup records k :
  Z.of_nat (length records) ≤ max_int →
  count_by field records !! k =
    if decide (occurrences field k records = 0) then None
    else Some (occurrences field k records).
Proof.
  induction records as [|r records IH] using rev_ind; intros Hlen.
  - unfold count_by, occurrences. simpl. by rewrite lookup_empty.
  - rewrite length_app in Hlen. simpl in Hlen.
    rewrite count_by_snoc, occurrences_snoc. unfold incr.
    pose proof (occurrences_bounds k records) as Hocc.
    destruct (decide (field r = k)) as [Heq|Hne].
    + subst k. rewrite lookup_insert_eq, IH by lia. clear IH.
      assert (Hread : default 0
                (if decide (occurrences field (field r) records = 0) then None
                 else Some (occurrences field (field r) records))
              = occurrences field (field r) records).
      { case_decide; simpl; lia. }
      rewrite Hread, wrap_in_range by (unfold min_int, max_int in *; lia).
      clear Hread. case_decide; [lia|done].
    + rewrite lookup_insert_ne, IH by (done || lia).
      by rewrite Z.add_0_r.
Qed.

Lemma sum_counts_count_by_length records :
  Z.of_nat (length records) ≤ max_int →
  sum_counts (count_by field records) = Z.of_nat (length records).
Proof.
  induction records as [|r records IH] using rev_ind; intros Hlen.
  - unfold count_by, sum_counts. simpl. by rewrite map_fold_empty.
  - rewrite length_app in Hlen |- *. simpl in *.
    rewrite count_by_snoc. unfold incr.
    pose proof (occurrences_bounds (field r) records) as Hocc.
    pose proof (count_by_lookup records (field r) ltac:(lia)) as Hk.
    destruct (decide (occurrences field (field r) records = 0)) as [Hz|Hnz].
    + rewrite Hk. simpl. rewrite sum_counts_insert_fresh by done.
      rewrite wrap_in_range by (unfold min_int, max_int; lia).
      rewrite IH by lia. lia.
    + rewrite Hk. simpl.
      rewrite (sum_counts_insert_known _ _ _ _ Hk).
      rewrite wrap_in_range by (unfold min_int, max_int in *; lia).
      rewrite IH by lia. lia.
Qed.

Lemma with_value_split records :
  Z.of_nat (length records) =
  Z.of_nat (length (with_value field records)) + occurrences field "" records.
Proof.
  unfold with_value, occurrences.
  induction records as [|r records IH]; [done|].
  rewrite !filter_cons. simpl.
  destruct (decide (field r = "")); destruct (decide (field r ≠ "")); simpl; try done; lia.
Qed.

(** C2, as amended.  The sum of the counts of a table is the number of
    records it was built from: the records with a non-empty field value
    plus those counted under the empty-string key. *)
Theorem sum_counts_count_by records :
  Z.of_nat (length records) ≤ max_int →
  sum_counts (count_by field records) = Z.of_nat (length records) ∧
  sum_counts (count_by field records) =
    Z.of_nat (length (with_value field records)) +
    default 0 (count_by field records !! "").
Proof.
  intros Hlen. rewrite sum_counts_count_by_length by done.
  split; [done|].
  rewrite count_by_lookup by done.
  rewrite (with_value_split records).
  case_decide; simpl; lia.
Qed.

End Counting.

Lemma sum_counts_count_by_witness :
  sum_counts (NewsAPI.fuentes NewsAPI.scenario) = 6 ∧
  sum_counts (NewsAPI.fuentes NewsAPI.scenario) =
    Z.of_nat (length (with_value (λ art, NewsAPI.Name (NewsAPI.Source art))
                        (NewsAPI.Articles NewsAPI.scenario))) +
    default 0 (NewsAPI.fuentes NewsAPI.scenario !! "").
Proof.
  apply (sum_counts_count_by (λ art, NewsAPI.Name (NewsAPI.Source art))
           (NewsAPI.Articles NewsAPI.scenario)).
  by vm_compute.
Defined.

(** C2, as stated, fails: a record without a source name is still
    counted, under the empty-string key. *)
Lemma sum_counts_counts_empty_values :
  sum_counts (NewsAPI.fuentes
                (NewsAPI.mkNewsAPIResponse "ok" 1 [NewsAPI.article_from ""]))
  ≠ Z.of_nat (length (with_value (λ art, NewsAPI.Name (NewsAPI.Source art))
                        [NewsAPI.article_from ""])).
Proof. by vm_compute. Qed.

(* ===================================================================== *)
(** * Properties of the string helpers                                    *)
(* ===================================================================== *)

Section Strings.

Implicit Types (s t u : string).

Lemma append_nil_l s : "" +:+ s = s.
Proof. reflexivity. Qed.

Lemma append_cons c s t : String c s +:+ t = String c (s +:+ t).
Proof. reflexivity. Qed.

Lemma append_assoc s t u : (s +:+ t) +:+ u = s +:+ t +:+ u.
Proof.
  induction s as [|c s IH]; [done|].
  by rewrite !append_cons, IH.
Qed.

Lemma length_append s t :
  String.length (s +:+ t) = (String.length s + String.length t)%nat.
Proof.
  induction s as [|c s IH]; [done|].
  rewrite append_cons. simpl. by rewrite IH.
Qed.

Lemma prefix_append s t : String.prefix s (s +:+ t) = true.
Proof.
  induction s as [|c s IH]; [by destruct t|].
  rewrite append_cons. simpl. by destruct (ascii_dec c c).
Qed.

Lemma prefix_split s t : String.prefix s t = true → ∃ u, t = s +:+ u.
Proof.
  revert t. induction s as [|c s IH]; intros t Hp.
  - by exists t.
  - destruct t as [|d t]; [done|]. simpl in Hp.
    destruct (ascii_dec c d) as [->|]; [|done].
    destruct (IH t Hp) as [u ->]. by exists u.
Qed.

Lemma Contains_nil needle : Contains "" needle = String.prefix needle "" || false.
Proof. reflexivity. Qed.

Lemma Contains_cons c hay needle :
  Contains (String c hay) needle =
  String.prefix needle (String c hay) || Contains hay needle.
Proof. reflexivity. Qed.

(** [strings.Contains] decides [occurs_in]. *)
Lemma Contains_occurs_in hay needle :
  Contains hay needle = true ↔ occurs_in needle hay.
Proof.
  split.
  - induction hay as [|c hay IH].
    + rewrite Contains_nil, orb_true_iff. intros [Hp|?]; [|done].
      apply prefix_split in Hp as [u Hu]. by exists "", u.
    + rewrite Contains_cons, orb_true_iff. intros [Hp|Hrest].
      * apply prefix_split in Hp as [u Hu]. by exists "", u.
      * destruct (IH Hrest) as (before & after & ->).
        by exists (String c before), after.
  - intros (before & after & ->).
    induction before as [|c before IH].
    + rewrite append_nil_l.
      destruct (needle +:+ after) as [|c rest] eqn:Heq.
      * rewrite Contains_nil, <- Heq, prefix_append. done.
      * rewrite Contains_cons, <- Heq, prefix_append. done.
    + rewrite append_cons, Contains_cons, IH. apply orb_true_r.
Qed.

Lemma occurs_in_middle s t u : occurs_in t (s +:+ t +:+ u).
Proof. by exists s, u. Qed.

(** [s[:n]] is the prefix of [n] bytes. *)
Lemma slice_string_to_prefix s (n : nat) :
  (n ≤ String.length s)%nat →
  String.length (slice_string_to s n) = n ∧
  ∃ rest, s = slice_string_to s n +:+ rest.
Proof.
  unfold slice_string_to. revert s.
  induction n as [|n IH]; intros s Hn.
  - destruct s; simpl; split; try done; by eexists.
  - destruct s as [|c s]; simpl in *; [lia|].
    destruct (IH s ltac:(lia)) as [Hlen [rest Hrest]].
    split; [by rewrite Hlen|].
    exists rest. by rewrite append_cons, <- Hrest.
Qed.



End Strings.

(* ===================================================================== *)
(** * Properties of the collectors                                        *)
(* ===================================================================== *)

(** Unfolds the early-return monad down to the answers of the outside
    world, which the callers then split by cases. *)
Ltac unfold_run :=
  unfold run, Do, ReadAll, Decode, Get, try, Printf, emit, Return, NewRequest,
    mbind, M_bind, mret, M_ret, set_header; simpl.

(** Reads a hypothesis [answered net trace resp] over a trace that is a
    list of known events. *)
Ltac read_answered H :=
  let req := fresh "req" in
  let Hin := fresh "Hin" in
  let Hresp := fresh "Hresp" in
  destruct H as (req & Hin & Hresp); simpl in Hin;
  first [ by apply elem_of_nil in Hin
        | apply list_elem_of_singleton in Hin; subst req ].

Section NewsAPI_run.

Context `{!JSON NewsAPI.NewsAPIResponse} (net : Network) (n : NewsAPI.NewsAPICrawler).
Context (queryRaw idiomasCSV fechaInicio fechaFin : string) (pageSize : Z).

Let url := NewsAPI.fullURL n queryRaw idiomasCSV fechaInicio fechaFin pageSize.
Let req := NewsAPI.request n queryRaw idiomasCSV fechaInicio fechaFin pageSize.
Let printed := EvPrintf (NewsAPI.banner queryRaw idiomasCSV fechaInicio fechaFin).
Let the_run :=
  NewsAPI.BuscarArticulos net n queryRaw idiomasCSV fechaInicio fechaFin pageSize.

(** [BuscarArticulos], read as a decision list over what the outside
    world answers. *)
Lemma NewsAPI_run_cases :
  the_run =
  match url_Parse_err net url with
  | Some err => ([printed], (None, Some err))
  | None =>
      match RoundTrip net req with
      | inl err =>
          ([printed; EvDo req], (None, Some ("error en petición: " +:+ err)))
      | inr resp =>
          match Body resp with
          | inl err =>
              ([printed; EvDo req; EvReadAll],
               (None, Some ("error leyendo respuesta: " +:+ err)))
          | inr body =>
              ([printed; EvDo req; EvReadAll; EvUnmarshal body],
               match Unmarshal body with
               | inl err => (None, Some (NewsAPI.decode_error err body))
               | inr apiResp =>
                   if bool_decide (NewsAPI.Status apiResp ≠ "ok")
                   then (None, Some (NewsAPI.status_error (NewsAPI.Status apiResp) body))
                   else (Some apiResp, None)
               end)
          end
      end
  end.
Proof.
  subst the_run url req printed. unfold NewsAPI.BuscarArticulos, NewsAPI.request.
  unfold_run.
  destruct (url_Parse_err net _); simpl; [done|].
  destruct (RoundTrip net _) as [?|resp]; simpl; [done|].
  destruct (Body resp) as [?|body]; simpl; [done|].
  destruct (Unmarshal body) as [?|apiResp]; simpl; [done|].
  by case_bool_decide.
Qed.

Lemma NewsAPI_answered resp :
  answered net the_run.1 resp →
  url_Parse_err net url = None ∧ RoundTrip net req = inr resp.
Proof.
  rewrite NewsAPI_run_cases. intros Hans.
  destruct (url_Parse_err net url); [read_answered Hans|].
  destruct (RoundTrip net req) as [?|resp'] eqn:Hrt; [read_answered Hans; congruence|].
  destruct (Body resp'); read_answered Hans; split; congruence.
Qed.

End NewsAPI_run.

Section GDELT_run.

Context `{!JSON GDELT.GDELTResponse} (net : Network) (g : GDELT.GDELTCrawler).
Context (queryRaw : string) (idiomas : list string).
Context (fechaInicio fechaFin : string) (maxRecords : Z).

Let url := GDELT.fullURL g queryRaw idiomas fechaInicio fechaFin maxRecords.
Let req := GDELT.request g queryRaw idiomas fechaInicio fechaFin maxRecords.
Let printed := EvPrintf (GDELT.banner queryRaw idiomas fechaInicio fechaFin).
Let the_run :=
  GDELT.BuscarArticulosMultiLang net g queryRaw idiomas fechaInicio fechaFin maxRecords.

Lemma GDELT_run_cases :
  the_run =
  match url_Parse_err net url with
  | Some err => ([printed], (None, Some err))
  | None =>
      match RoundTrip net req with
      | inl err =>
          ([printed; EvDo req], (None, Some ("error en petición: " +:+ err)))
      | inr resp =>
          match Body resp with
          | inl err =>
              ([printed; EvDo req; EvReadAll],
               (None, Some ("error leyendo respuesta: " +:+ err)))
          | inr body =>
              if bool_decide (StatusCode resp ≠ StatusOK) then
                ([printed; EvDo req; EvReadAll],
                 (None, Some (GDELT.http_error (StatusCode resp) body)))
              else
                ([printed; EvDo req; EvReadAll; EvUnmarshal body],
                 match Unmarshal body with
                 | inl err => (None, Some (GDELT.decode_error err body))
                 | inr gdeltResp => (Some gdeltResp, None)
                 end)
          end
      end
  end.
Proof.
  subst the_run url req printed.
  unfold GDELT.BuscarArticulosMultiLang, GDELT.request.
  unfold_run.
  destruct (url_Parse_err net _); simpl; [done|].
  destruct (RoundTrip net _) as [?|resp]; simpl; [done|].
  destruct (Body resp) as [?|body]; simpl; [done|].
  case_bool_decide; simpl; [done|].
  by destruct (Unmarshal body).
Qed.

Lemma GDELT_answered resp :
  answered net the_run.1 resp →
  url_Parse_err net url = None ∧ RoundTrip net req = inr resp.
Proof.
  rewrite GDELT_run_cases. intros Hans.
  destruct (url_Parse_err net url); [read_answered Hans|].
  destruct (RoundTrip net req) as [?|resp'] eqn:Hrt; [read_answered Hans; congruence|].
  destruct (Body resp'); [|case_bool_decide]; read_answered Hans; split; congruence.
Qed.

End GDELT_run.

Section Guardian_run.

Context `{!JSON Guardian.GuardianResponse} (net : Network) (g : Guardian.GuardianCrawler).
Context (queryRaw fechaInicio fechaFin : string) (pageSize : Z).

Let url := Guardian.fullURL g queryRaw fechaInicio fechaFin pageSize.
Let req := Guardian.request g queryRaw fechaInicio fechaFin pageSize.
Let printed := EvPrintf (Guardian.banner queryRaw fechaInicio fechaFin).
Let the_run :=
  Guardian.BuscarArticulos net g queryRaw fechaInicio fechaFin pageSize.

Lemma Guardian_run_cases :
  the_run =
  match url_Parse_err net url with
  | Some err => ([printed], (None, Some ("error en petición: " +:+ err)))
  | None =>
      match RoundTrip net req with
      | inl err =>
          ([printed; EvDo req], (None, Some ("error en petición: " +:+ err)))
      | inr resp =>
          match Body resp with
          | inl err =>
              ([printed; EvDo req; EvReadAll],
               (None, Some ("error leyendo respuesta: " +:+ err)))
          | inr body =>
              if bool_decide (StatusCode resp ≠ StatusOK) then
                ([printed; EvDo req; EvReadAll],
                 (None, Some (Guardian.http_error (StatusCode resp) body)))
              else
                ([printed; EvDo req; EvReadAll; EvUnmarshal body],
                 match Unmarshal body with
                 | inl err => (None, Some (Guardian.decode_error err body))
                 | inr apiResp =>
                     if bool_decide (Guardian.Status (Guardian.Response apiResp) ≠ "ok")
                     then (None, Some (Guardian.status_error
                                         (Guardian.Status (Guardian.Response apiResp))))
                     else (Some apiResp, None)
                 end)
          end
      end
  end.
Proof.
  subst the_run url req printed.
  unfold Guardian.BuscarArticulos, Guardian.request.
  unfold_run.
  destruct (url_Parse_err net _); simpl; [done|].
  destruct (RoundTrip net _) as [?|resp]; simpl; [done|].
  destruct (Body resp) as [?|body]; simpl; [done|].
  case_bool_decide; simpl; [done|].
  destruct (Unmarshal body) as [?|apiResp]; simpl; [done|].
  by case_bool_decide.
Qed.

Lemma Guardian_answered resp :
  answered net the_run.1 resp →
  url_Parse_err net url = None ∧ RoundTrip net req = inr resp.
Proof.
  rewrite Guardian_run_cases. intros Hans.
  destruct (url_Parse_err net url); [read_answered Hans|].
  destruct (RoundTrip net req) as [?|resp'] eqn:Hrt; [read_answered Hans; congruence|].
  destruct (Body resp'); [|case_bool_decide]; read_answered Hans; split; congruence.
Qed.

End Guardian_run.

Section X_run.

Context `{!JSON X.XResponse} (net : Network) (x : X.XCrawler).
Context (queryRaw : string) (maxResults : Z) (startTime endTime : string).

Let url := X.fullURL x queryRaw maxResults startTime endTime.
Let req := X.request x queryRaw maxResults startTime endTime.
Let printed := EvPrintf (X.banner queryRaw startTime endTime).
Let the_run := X.BuscarTweets net x queryRaw maxResults startTime endTime.

Lemma X_run_cases :
  the_run =
  match url_Parse_err net url with
  | Some err => ([printed], (None, Some err))
  | None =>
      match RoundTrip net req with
      | inl err =>
          ([printed; EvDo req], (None, Some ("error en petición: " +:+ err)))
      | inr resp =>
          match Body resp with
          | inl err =>
              ([printed; EvDo req; EvReadAll],
               (None, Some ("error leyendo respuesta: " +:+ err)))
          | inr body =>
              if bool_decide (StatusCode resp ≠ StatusOK) then
                ([printed; EvDo req; EvReadAll],
                 (None, Some (X.http_error (StatusCode resp) body)))
              else
                ([printed; EvDo req; EvReadAll; EvUnmarshal body],
                 match Unmarshal body with
                 | inl err => (None, Some (X.decode_error err body))
                 | inr apiResp => (Some apiResp, None)
                 end)
          end
      end
  end.
Proof.
  subst the_run url req printed. unfold X.BuscarTweets, X.request.
  unfold_run.
  destruct (url_Parse_err net _); simpl; [done|].
  destruct (RoundTrip net _) as [?|resp]; simpl; [done|].
  destruct (Body resp) as [?|body]; simpl; [done|].
  case_bool_decide; simpl; [done|].
  by destruct (Unmarshal body).
Qed.

Lemma X_answered resp :
  answered net the_run.1 resp →
  url_Parse_err net url = None ∧ RoundTrip net req = inr resp.
Proof.
  rewrite X_run_cases. intros Hans.
  destruct (url_Parse_err net url); [read_answered Hans|].
  destruct (RoundTrip net req) as [?|resp'] eqn:Hrt; [read_answered Hans; congruence|].
  destruct (Body resp'); [|case_bool_decide]; read_answered Hans; split; congruence.
Qed.

End X_run.

(** ** HTTP status *)

Section HTTP_status.

(** GDELT: a response whose status is not 200 ends the call before the
    decoder is reached, and the error text carries the status code. *)
Lemma GDELT_http_error_short_circuits `{!JSON GDELT.GDELTResponse}
    net g queryRaw idiomas fechaInicio fechaFin maxRecords resp body :
  let r := GDELT.BuscarArticulosMultiLang net g queryRaw idiomas
             fechaInicio fechaFin maxRecords in
  answered net r.1 resp → Body resp = inr body → StatusCode resp ≠ StatusOK →
  bodies_decoded r.1 = [] ∧
  r.2 = (None, Some (GDELT.http_error (StatusCode resp) body)) ∧
  occurs_in (Sprintf_d (StatusCode resp)) (GDELT.http_error (StatusCode resp) body).
Proof.
  intros r [Hparse Hrt]%GDELT_answered Hbody Hcode. subst r.
  rewrite GDELT_run_cases, Hparse, Hrt, Hbody, bool_decide_eq_true_2 by done.
  split_and!; [done..|]. apply occurs_in_middle.
Qed.

Lemma Guardian_http_error_short_circuits `{!JSON Guardian.GuardianResponse}
    net g queryRaw fechaInicio fechaFin pageSize resp body :
  let r := Guardian.BuscarArticulos net g queryRaw fechaInicio fechaFin pageSize in
  answered net r.1 resp → Body resp = inr body → StatusCode resp ≠ StatusOK →
  bodies_decoded r.1 = [] ∧
  r.2 = (None, Some (Guardian.http_error (StatusCode resp) body)) ∧
  occurs_in (Sprintf_d (StatusCode resp)) (Guardian.http_error (StatusCode resp) body).
Proof.
  intros r [Hparse Hrt]%Guardian_answered Hbody Hcode. subst r.
  rewrite Guardian_run_cases, Hparse, Hrt, Hbody, bool_decide_eq_true_2 by done.
  split_and!; [done..|]. apply occurs_in_middle.
Qed.

Lemma X_http_error_short_circuits `{!JSON X.XResponse}
    net x queryRaw maxResults startTime endTime resp body :
  let r := X.BuscarTweets net x queryRaw maxResults startTime endTime in
  answered net r.1 resp → Body resp = inr body → StatusCode resp ≠ StatusOK →
  bodies_decoded r.1 = [] ∧
  r.2 = (None, Some (X.http_error (StatusCode resp) body)) ∧
  occurs_in (Sprintf_d (StatusCode resp)) (X.http_error (StatusCode resp) body).
Proof.
  intros r [Hparse Hrt]%X_answered Hbody Hcode. subst r.
  rewrite X_run_cases, Hparse, Hrt, Hbody, bool_decide_eq_true_2 by done.
  split_and!; [done..|]. apply occurs_in_middle.
Qed.

Lemma not_2xx_not_OK code : not_2xx code → code ≠ StatusOK.
Proof. unfold not_2xx, StatusOK. lia. Qed.

(** C1, where the code departs from it.  The NewsAPI collector never
    looks at the HTTP status: whatever the status code of the response
    (429 and 500 included), the body is handed to the JSON decoder, and
    a body that decodes to a payload with status "ok" is returned as a
    success, with no error at all. *)
Theorem NewsAPI_ignores_http_status `{!JSON NewsAPI.NewsAPIResponse}
    net n queryRaw idiomasCSV fechaInicio fechaFin pageSize resp body apiResp :
  let r := NewsAPI.BuscarArticulos net n queryRaw idiomasCSV
             fechaInicio fechaFin pageSize in
  answered net r.1 resp → Body resp = inr body →
  Unmarshal body = inr apiResp → NewsAPI.Status apiResp = "ok" →
  bodies_decoded r.1 = [body] ∧ r.2 = (Some apiResp, None).
Proof.
  intros r [Hparse Hrt]%NewsAPI_answered Hbody Hdecode Hstatus. subst r.
  rewrite NewsAPI_run_cases, Hparse, Hrt, Hbody, Hdecode.
  by rewrite bool_decide_eq_false_2 by (by intros []).
Qed.

Lemma NewsAPI_ignores_http_status_witness :
  StatusCode (mkResponse 429 (inr ok_body)) = 429 ∧
  bodies_decoded (main_run (decodes_to ok_payload) (server 429 ok_body)).1
    = [ok_body] ∧
  (main_run (decodes_to ok_payload) (server 429 ok_body)).2
    = (Some ok_payload, None).
Proof.
  split; [reflexivity|].
  apply (@NewsAPI_ignores_http_status (decodes_to ok_payload) (server 429 ok_body)
           _ _ _ _ _ _ (mkResponse 429 (inr ok_body)) ok_body ok_payload).
  - eexists. split; [|reflexivity]. vm_compute. left.
  - reflexivity.
  - reflexivity.
  - reflexivity.
Defined.

End HTTP_status.

(** On a 429 whose body reports an error, the NewsAPI collector decodes
    the body first and the error it returns does not name the code. *)
Example NewsAPI_429_error_payload :
  let r := main_run (decodes_to error_payload) (server 429 error_body) in
  bodies_decoded r.1 = [error_body] ∧
  r.2 = (None, Some (NewsAPI.status_error "error" error_body)) ∧
  Contains (NewsAPI.status_error "error" error_body) "429" = false.
Proof. by vm_compute. Qed.

(** ** Status embedded in the payload *)

Section Embedded_status.





End Embedded_status.

(** ** Decode failures *)

Section Decode_failure.





(** The four decode errors end with the preview of the body. *)
Lemma decode_errors_quote_preview err body :
  quotes_preview (NewsAPI.decode_error err body) body ∧
  quotes_preview (GDELT.decode_error err body) body ∧
  quotes_preview (Guardian.decode_error err body) body ∧
  quotes_preview (X.decode_error err body) body.
Proof.
  unfold quotes_preview, NewsAPI.decode_error, GDELT.decode_error,
    Guardian.decode_error, X.decode_error.
  split_and!; eexists; rewrite <- ?append_assoc; reflexivity.
Qed.



(** The preview of the 606-byte body has 503 bytes and ends with the
    ellipsis. *)
Example preview_html_body :
  len html_body = 606 ∧ len (preview html_body) = 503 ∧
  preview html_body = slice_string_to html_body 500 +:+ "...".
Proof. by vm_compute. Qed.

End Decode_failure.

(** ** The request of the NewsAPI collector *)

Section NewsAPI_request.

(** C9. The request of the NewsAPI collector does not depend on the
    search phrase it is given: for any two values of [queryRaw], all
    other arguments equal, the URL, the request and the whole run are
    the same, and the [q] parameter is the fixed phrase
    ["Universidad de Antioquia" OR UdeA]. *)
Theorem NewsAPI_request_ignores_queryRaw (json : JSON NewsAPI.NewsAPIResponse)
    net n (queryRaw1 queryRaw2 : string) idiomasCSV fechaInicio fechaFin pageSize :
  NewsAPI.fullURL n queryRaw1 idiomasCSV fechaInicio fechaFin pageSize =
    NewsAPI.fullURL n queryRaw2 idiomasCSV fechaInicio fechaFin pageSize ∧
  NewsAPI.request n queryRaw1 idiomasCSV fechaInicio fechaFin pageSize =
    NewsAPI.request n queryRaw2 idiomasCSV fechaInicio fechaFin pageSize ∧
  NewsAPI.BuscarArticulos net n queryRaw1 idiomasCSV fechaInicio fechaFin pageSize =
    NewsAPI.BuscarArticulos net n queryRaw2 idiomasCSV fechaInicio fechaFin pageSize ∧
  Values_index (NewsAPI.params queryRaw1 idiomasCSV fechaInicio fechaFin pageSize) "q"
    = [dquote +:+ "Universidad de Antioquia" +:+ dquote +:+ " OR UdeA"] ∧
  NewsAPI.fullURL n queryRaw1 idiomasCSV fechaInicio fechaFin pageSize =
    NewsAPI.BaseURL n +:+ "?" +:+
    Join ["from=" +:+ QueryEscape fechaInicio;
          "language=" +:+ QueryEscape idiomasCSV;
          "pageSize=" +:+ QueryEscape (Sprintf_d pageSize);
          "q=%22Universidad+de+Antioquia%22+OR+UdeA";
          "sortBy=publishedAt";
          "to=" +:+ QueryEscape fechaFin] "&".
Proof.
  split_and!; reflexivity.
Qed.

(** The URL [main] asks for, whatever phrase is passed. *)
Example NewsAPI_main_url queryRaw :
  NewsAPI.fullURL (NewsAPI.NewNewsAPICrawler "api-key") queryRaw "es,en"
    "2023-01-01T00:00:00" "2023-01-31T00:00:00" 50 =
  "https://newsapi.org/v2/everything?from=2023-01-01T00%3A00%3A00&language=es%2Cen&pageSize=50&q=%22Universidad+de+Antioquia%22+OR+UdeA&sortBy=publishedAt&to=2023-01-31T00%3A00%3A00".
Proof. reflexivity. Qed.

(** The Guardian collector, by contrast, sends the phrase it is given. *)
Example Guardian_url_depends_on_queryRaw :
  Guardian.fullURL (Guardian.NewGuardianCrawler "api-key") "UdeA"
    "2023-01-01" "2023-12-31" 50 ≠
  Guardian.fullURL (Guardian.NewGuardianCrawler "api-key") "Antioquia"
    "2023-01-01" "2023-12-31" 50.
Proof. by vm_compute. Qed.

End NewsAPI_request.

(* ===================================================================== *)
(** * Further properties of [getTopN]                                     *)
(* ===================================================================== *)

Section Ranking_contents.

Implicit Types (m : gmap string Z) (n : Z) (l : list KeyValue).

#[local] Instance in_order_transitive : Transitive in_order.
Proof. intros a b c. rewrite !in_order_le. lia. Qed.

Lemma entries_of_map m kv :
  kv ∈ as_KeyValue <$> map_to_list m ↔ m !! Key kv = Some (Value kv).
Proof.
  rewrite list_elem_of_fmap. split.
  - intros ([k v] & -> & Hin). by apply elem_of_map_to_list in Hin.
  - intros Hkv. exists (Key kv, Value kv). split; [by destruct kv|].
    by apply elem_of_map_to_list.
Qed.

Lemma keys_of_entries m :
  Key <$> (as_KeyValue <$> map_to_list m) = (map_to_list m).*1.
Proof. rewrite <- list_fmap_compose. by apply list_fmap_ext. Qed.

(** X1.  The returned entries are entries of the map, and no key is returned
    twice. *)
Theorem getTopN_returns_entries m n final :
  0 ≤ n → getTopN m n final →
  ∃ l, result final = Returns l ∧
    (∀ kv, kv ∈ l → m !! Key kv = Some (Value kv)) ∧
    NoDup (Key <$> l).
Proof.
  intros Hn Hrun.
  destruct (getTopN_returns m n final Hn Hrun)
    as (sorted & Hperm & _ & _ & _ & _ & _ & Hres).
  eexists. split; [exact Hres|]. split.
  - intros kv Hin%subseteq_take. rewrite Hperm in Hin.
    by apply entries_of_map.
  - rewrite fmap_take. eapply sublist_NoDup; [|apply sublist_take].
    rewrite Hperm, keys_of_entries. apply NoDup_fst_map_to_list.
Qed.

Lemma getTopN_returns_entries_witness :
  ∃ l, result (getTopN_exec (NewsAPI.fuentes NewsAPI.scenario) 2) = Returns l ∧
    (∀ kv, kv ∈ l →
       NewsAPI.fuentes NewsAPI.scenario !! Key kv = Some (Value kv)) ∧
    NoDup (Key <$> l).
Proof.
  apply (getTopN_returns_entries (NewsAPI.fuentes NewsAPI.scenario) 2); [lia|apply getTopN_exec_run].
Defined.

(** X2.  The returned entries are the top ones: an entry of the map that is
    left out has a count no greater than any count returned. *)
Theorem getTopN_keeps_the_largest m n final :
  0 ≤ n → getTopN m n final →
  ∃ l, result final = Returns l ∧
    ∀ k v a, m !! k = Some v → mkKeyValue k v ∉ l → a ∈ l → v ≤ Value a.
Proof.
  intros Hn Hrun.
  destruct (getTopN_returns m n final Hn Hrun)
    as (sorted & Hperm & Hsorted & _ & _ & _ & _ & Hres).
  eexists. split; [exact Hres|].
  set (cut := Z.to_nat (Z.min n (Z.of_nat (size m)))).
  intros k v a Hkv Hout Ha.
  assert (Hin : mkKeyValue k v ∈ sorted).
  { rewrite Hperm. by apply entries_of_map. }
  rewrite <- (take_drop cut sorted) in Hin, Hsorted.
  apply elem_of_app in Hin as [Hin|Hin]; [done|].
  apply (Sorted_StronglySorted _) in Hsorted.
  apply (in_order_le a (mkKeyValue k v)).
  by eapply StronglySorted_app_1_elem_of.
Qed.

Lemma getTopN_keeps_the_largest_witness :
  ∃ l, result (getTopN_exec (NewsAPI.fuentes NewsAPI.scenario) 2) = Returns l ∧
    ∀ k v a, NewsAPI.fuentes NewsAPI.scenario !! k = Some v →
      mkKeyValue k v ∉ l → a ∈ l → v ≤ Value a.
Proof.
  apply (getTopN_keeps_the_largest (NewsAPI.fuentes NewsAPI.scenario) 2); [lia|apply getTopN_exec_run].
Defined.

(** X3.  Asking for at least as many entries as the map has keys returns
    every entry of the map, each once. *)
Theorem getTopN_returns_all m n final :
  Z.of_nat (size m) ≤ n → getTopN m n final →
  ∃ l, result final = Returns l ∧ l ≡ₚ as_KeyValue <$> map_to_list m.
Proof.
  intros Hn Hrun.
  destruct (getTopN_returns m n final ltac:(lia) Hrun)
    as (sorted & Hperm & _ & _ & _ & _ & _ & Hres).
  eexists. split; [exact Hres|].
  rewrite take_ge; [done|].
  rewrite (sorted_length _ _ Hperm). lia.
Qed.

Lemma getTopN_returns_all_witness :
  ∃ l, result (getTopN_exec (NewsAPI.fuentes NewsAPI.scenario) 10) = Returns l ∧
    l ≡ₚ as_KeyValue <$> map_to_list (NewsAPI.fuentes NewsAPI.scenario).
Proof.
  apply (getTopN_returns_all (NewsAPI.fuentes NewsAPI.scenario) 10); [by vm_compute|apply getTopN_exec_run].
Defined.

Lemma sorted_counts_unique l1 l2 :
  l1 ≡ₚ l2 → Sorted in_order l1 → Sorted in_order l2 →
  Value <$> l1 = Value <$> l2.
Proof.
  intros Hperm Hs1 Hs2.
  assert (Transitive (λ x y : Z, y ≤ x)) by (intros x y z; lia).
  assert (AntiSymm (=) (λ x y : Z, y ≤ x)) by (intros x y; lia).
  apply (Sorted_unique (λ x y : Z, y ≤ x)).
  - eapply Sorted_fmap; [|exact Hs1]. intros a b. by rewrite in_order_le.
  - eapply Sorted_fmap; [|exact Hs2]. intros a b. by rewrite in_order_le.
  - by rewrite Hperm.
Qed.

(** X4.  Whatever the iteration order of the map and the choices of the
    sort, two calls on the same map return the same sequence of counts;
    only the keys of equal counts may change places. *)
Theorem getTopN_counts_are_determined m n final1 final2 :
  0 ≤ n → getTopN m n final1 → getTopN m n final2 →
  ∃ l1 l2, result final1 = Returns l1 ∧ result final2 = Returns l2 ∧
    Value <$> l1 = Value <$> l2.
Proof.
  intros Hn Hrun1 Hrun2.
  destruct (getTopN_returns m n final1 Hn Hrun1)
    as (sorted1 & Hperm1 & Hsorted1 & _ & _ & _ & _ & Hres1).
  destruct (getTopN_returns m n final2 Hn Hrun2)
    as (sorted2 & Hperm2 & Hsorted2 & _ & _ & _ & _ & Hres2).
  eexists _, _. split_and!; [exact Hres1|exact Hres2|].
  rewrite !fmap_take. f_equal.
  apply sorted_counts_unique; [|done..]. by rewrite Hperm1, Hperm2.
Qed.

Lemma getTopN_counts_are_determined_witness :
  ∃ l1 l2,
    result (getTopN_exec (NewsAPI.fuentes NewsAPI.scenario) 2) = Returns l1 ∧
    result (getTopN_exec (NewsAPI.fuentes NewsAPI.scenario) 2) = Returns l2 ∧
    Value <$> l1 = Value <$> l2.
Proof.
  apply (getTopN_counts_are_determined (NewsAPI.fuentes NewsAPI.scenario) 2);
    [lia|apply getTopN_exec_run|apply getTopN_exec_run].
Defined.

(** X5.  When no two keys hold the same count, the call has one possible
    outcome: ties are the only source of variation. *)
Theorem getTopN_determined_without_ties m n final1 final2 :
  (∀ k1 k2 v, m !! k1 = Some v → m !! k2 = Some v → k1 = k2) →
  getTopN m n final1 → getTopN m n final2 →
  final1 = final2.
Proof.
  intros Hties
    (sorted1 & Hperm1 & Hsorted1 & ->)%getTopN_inv
    (sorted2 & Hperm2 & Hsorted2 & ->)%getTopN_inv.
  do 2 f_equal.
  apply (StronglySorted_unique_strong in_order);
    [|by apply (Sorted_StronglySorted _)..|by rewrite Hperm1, Hperm2].
  intros x1 x2 Hx1 Hx2 H12%in_order_le H21%in_order_le.
  rewrite Hperm1 in Hx1. rewrite Hperm2 in Hx2.
  apply entries_of_map in Hx1, Hx2.
  assert (Value x1 = Value x2) as Hv by lia.
  rewrite Hv in Hx1. pose proof (Hties _ _ _ Hx1 Hx2) as Hk.
  destruct x1, x2; simpl in *; by subst.
Qed.

Lemma getTopN_determined_without_ties_witness :
  getTopN_exec (NewsAPI.fuentes NewsAPI.scenario) 2 =
  getTopN_exec (NewsAPI.fuentes NewsAPI.scenario) 2.
Proof.
  apply (getTopN_determined_without_ties (NewsAPI.fuentes NewsAPI.scenario) 2);
    [|apply getTopN_exec_run..].
  intros k1 k2 v.
  assert (Hm : NewsAPI.fuentes NewsAPI.scenario
               = <["A":=3]> (<["B":=2]> (<["C":=1]> ∅))) by by vm_compute.
  rewrite Hm. clear Hm.
  rewrite !lookup_insert, !lookup_empty.
  repeat case_decide; intros; simplify_eq; done.
Defined.

End Ranking_contents.

(* ===================================================================== *)
(** * Further properties of the frequency table                           *)
(* ===================================================================== *)

Section Counting_contents.

Context {A : Type} (field : A → string).

Implicit Types (records : list A) (k : string).

Lemma occurrences_zero k records :
  occurrences field k records = 0 ↔ ∀ r, r ∈ records → field r ≠ k.
Proof.
  unfold occurrences. split.
  - intros Hz r Hin Hk.
    assert (Hr : r ∈ filter (λ r, field r = k) records)
      by by apply list_elem_of_filter.
    destruct (filter _ records); [by apply elem_of_nil in Hr|simpl in Hz; lia].
  - intros Hno.
    destruct (filter _ records) as [|r rest] eqn:Hf; [done|].
    assert (Hr : r ∈ filter (λ r, field r = k) records)
      by (rewrite Hf; left).
    apply list_elem_of_filter in Hr as [Hk Hin]. by destruct (Hno r Hin).
Qed.

(** X6.  Each key of the table holds the number of records with that field
    value, which is at least one; a value that no record has is not a
    key, and reads as zero. *)
Theorem count_by_holds_occurrences records k :
  Z.of_nat (length records) ≤ max_int →
  default 0 (count_by field records !! k) = occurrences field k records ∧
  (is_Some (count_by field records !! k) ↔ ∃ r, r ∈ records ∧ field r = k) ∧
  (∀ v, count_by field records !! k = Some v → 1 ≤ v ≤ Z.of_nat (length records)).
Proof.
  intros Hlen. rewrite (count_by_lookup field records k Hlen).
  pose proof (occurrences_bounds field k records) as Hb.
  pose proof (occurrences_zero k records) as Hz.
  case_decide as Hocc; simpl.
  - split_and!; [done| |by intros].
    split; [by intros []|]. intros (r & Hin & Hk).
    destruct (proj1 Hz Hocc r Hin Hk).
  - split_and!; [done| |intros v [= <-]; lia].
    split; [|by eexists]. intros _.
    unfold occurrences in Hocc.
    destruct (filter (λ r, field r = k) records) as [|r rest] eqn:Hf; [done|].
    assert (Hr : r ∈ filter (λ r, field r = k) records) by (rewrite Hf; left).
    apply list_elem_of_filter in Hr as [Hk Hin]. eauto.
Qed.

End Counting_contents.

Lemma count_by_holds_occurrences_witness :
  default 0 (NewsAPI.fuentes NewsAPI.scenario !! "A")
    = occurrences (λ art, NewsAPI.Name (NewsAPI.Source art)) "A"
        (NewsAPI.Articles NewsAPI.scenario) ∧
  (is_Some (NewsAPI.fuentes NewsAPI.scenario !! "A") ↔
   ∃ r, r ∈ NewsAPI.Articles NewsAPI.scenario ∧
        NewsAPI.Name (NewsAPI.Source r) = "A") ∧
  (∀ v, NewsAPI.fuentes NewsAPI.scenario !! "A" = Some v →
        1 ≤ v ≤ Z.of_nat (length (NewsAPI.Articles NewsAPI.scenario))).
Proof.
  apply (count_by_holds_occurrences (λ art, NewsAPI.Name (NewsAPI.Source art))
           (NewsAPI.Articles NewsAPI.scenario) "A").
  by vm_compute.
Defined.

Section Counting_shape.

Context {A : Type} (field : A → string).

Implicit Types (records : list A) (k : string).

Lemma dom_count_by records :
  dom (count_by field records) = list_to_set (field <$> records).
Proof.
  induction records as [|r records IH] using rev_ind; [done|].
  rewrite count_by_snoc. unfold incr.
  rewrite dom_insert_L, IH, fmap_app. simpl.
  rewrite list_to_set_snoc_L. apply union_comm_L.
Qed.

(** X7.  The keys of the table are the field values that occur, so the table
    has as many keys as the records have distinct field values; the
    empty record list gives the empty table. *)
Theorem count_by_keys records :
  (∀ k, is_Some (count_by field records !! k) ↔ k ∈ field <$> records) ∧
  size (count_by field records) = length (remove_dups (field <$> records)) ∧
  (records = [] → count_by field records = ∅).
Proof.
  split_and!.
  - intros k. by rewrite <- elem_of_dom, dom_count_by, elem_of_list_to_set.
  - rewrite <- size_dom, dom_count_by.
    rewrite <- (size_list_to_set (C:=gset string) (remove_dups (field <$> records)))
      by apply NoDup_remove_dups.
    f_equal. apply set_eq. intros k.
    by rewrite !elem_of_list_to_set, elem_of_remove_dups.
  - by intros ->.
Qed.

(** X8.  The table does not depend on the order of the records. *)
Theorem count_by_order_irrelevant records records' :
  records ≡ₚ records' → Z.of_nat (length records) ≤ max_int →
  count_by field records = count_by field records'.
Proof.
  intros Hperm Hlen. apply map_eq. intros k.
  assert (Hlen' : Z.of_nat (length records') ≤ max_int)
    by by rewrite <- (Permutation_length Hperm).
  assert (Hocc : occurrences field k records = occurrences field k records').
  { unfold occurrences. f_equal. apply Permutation_length.
    by apply filter_Permutation. }
  by rewrite !count_by_lookup, Hocc by done.
Qed.

End Counting_shape.

Lemma count_by_order_irrelevant_witness :
  count_by id ["A"; "B"; "A"] = count_by id ["B"; "A"; "A"].
Proof.
  apply (count_by_order_irrelevant id ["A"; "B"; "A"] ["B"; "A"; "A"]).
  - apply (bool_decide_unpack _). by vm_compute.
  - by vm_compute.
Defined.

(** ** Counting, then ranking *)

Section Top_sources.

(** X9.  The ranking printed by [ExplorarDatosNewsAPI]: at most ten rows,
    each the name of a source with the number of articles of that
    source, which is at least one, and no source is listed twice. *)
Theorem topFuentes_rows response final :
  Z.of_nat (length (NewsAPI.Articles response)) ≤ max_int →
  NewsAPI.topFuentes response final →
  ∃ rows, result final = Returns rows ∧
    (length rows ≤ 10)%nat ∧
    NoDup (Key <$> rows) ∧
    ∀ row, row ∈ rows →
      Value row = occurrences (λ art, NewsAPI.Name (NewsAPI.Source art))
                    (Key row) (NewsAPI.Articles response) ∧
      1 ≤ Value row.
Proof.
  intros Hlen Hrun. unfold NewsAPI.topFuentes in Hrun.
  destruct (getTopN_returns _ 10 final ltac:(lia) Hrun)
    as (sorted & Hperm & _ & _ & _ & _ & _ & Hres).
  eexists. split; [exact Hres|]. split_and!.
  - rewrite length_take. lia.
  - rewrite fmap_take. eapply sublist_NoDup; [|apply sublist_take].
    rewrite Hperm, keys_of_entries. apply NoDup_fst_map_to_list.
  - intros row Hin%subseteq_take. rewrite Hperm in Hin.
    apply entries_of_map in Hin. unfold NewsAPI.fuentes in Hin.
    rewrite count_by_lookup in Hin by done.
    pose proof (occurrences_bounds (λ art, NewsAPI.Name (NewsAPI.Source art))
                  (Key row) (NewsAPI.Articles response)).
    case_decide; simplify_eq. split; [done|lia].
Qed.

Lemma topFuentes_rows_witness :
  ∃ rows,
    result (getTopN_exec (NewsAPI.fuentes NewsAPI.scenario) 10) = Returns rows ∧
    (length rows ≤ 10)%nat ∧
    NoDup (Key <$> rows) ∧
    ∀ row, row ∈ rows →
      Value row = occurrences (λ art, NewsAPI.Name (NewsAPI.Source art))
                    (Key row) (NewsAPI.Articles NewsAPI.scenario) ∧
      1 ≤ Value row.
Proof.
  apply (topFuentes_rows NewsAPI.scenario); [by vm_compute|].
  apply getTopN_exec_run.
Defined.

End Top_sources.

(* ===================================================================== *)
(** * Further properties of the collectors                                *)
(* ===================================================================== *)

Section Collector_contracts.

(** Splits a run, already rewritten to its decision list, by what the
    outside world answers. *)
Ltac split_run net :=
  repeat match goal with
  | |- context [url_Parse_err net ?u] => destruct (url_Parse_err net u) eqn:?
  | |- context [RoundTrip net ?r] => destruct (RoundTrip net r) as [?|?] eqn:?
  | |- context [Body ?r] => destruct (Body r) as [?|?] eqn:?
  | |- context [bool_decide ?P] => destruct (bool_decide_reflect P)
  | |- context [Unmarshal ?b] => destruct (Unmarshal b) as [?|?] eqn:?
  end; simpl.

(** X10.  Each of the four search functions returns a result or an error,
    never both and never neither, whatever the network and the decoder
    do; so [main] never hands a nil response to [ExplorarDatos]. *)
Theorem collectors_return_result_or_error :
  (∀ (json : JSON NewsAPI.NewsAPIResponse) net n queryRaw idiomasCSV
     fechaInicio fechaFin pageSize,
     result_or_error
       (NewsAPI.BuscarArticulos net n queryRaw idiomasCSV
          fechaInicio fechaFin pageSize).2) ∧
  (∀ (json : JSON GDELT.GDELTResponse) net g queryRaw idiomas
     fechaInicio fechaFin maxRecords,
     result_or_error
       (GDELT.BuscarArticulosMultiLang net g queryRaw idiomas
          fechaInicio fechaFin maxRecords).2) ∧
  (∀ (json : JSON Guardian.GuardianResponse) net g queryRaw
     fechaInicio fechaFin pageSize,
     result_or_error
       (Guardian.BuscarArticulos net g queryRaw fechaInicio fechaFin pageSize).2) ∧
  (∀ (json : JSON X.XResponse) net x queryRaw maxResults startTime endTime,
     result_or_error
       (X.BuscarTweets net x queryRaw maxResults startTime endTime).2).
Proof.
  unfold result_or_error. split_and!; intros.
  - rewrite NewsAPI_run_cases. split_run net; eauto.
  - rewrite GDELT_run_cases. split_run net; eauto.
  - rewrite Guardian_run_cases. split_run net; eauto.
  - rewrite X_run_cases. split_run net; eauto.
Qed.


End Collector_contracts.

Section Collector_success.

Ltac split_run net :=
  repeat match goal with
  | |- context [url_Parse_err net ?u] => destruct (url_Parse_err net u) eqn:?
  | |- context [RoundTrip net ?r] => destruct (RoundTrip net r) as [?|?] eqn:?
  | |- context [Body ?r] => destruct (Body r) as [?|?] eqn:?
  | |- context [bool_decide ?P] => destruct (bool_decide_reflect P)
  | |- context [Unmarshal ?b] => destruct (Unmarshal b) as [?|?] eqn:?
  end; simpl.

Ltac succeed_iff net :=
  split;
  [ split_run net; intros ?; simplify_eq;
    eexists _, _; split_and!; first [done | by apply dec_stable]
  | intros (? & ? & ?); destruct_and?; split_run net;
    first [done | congruence] ].

(** X12.  When each search function succeeds, and with what.  GDELT and X
    return the decoded payload exactly when the URL is accepted, the
    round trip is answered with status 200, the body is read and it
    decodes.  The Guardian asks, on top of that, for the embedded status
    "ok".  NewsAPI asks for the embedded status "ok" and for nothing
    about the HTTP status. *)
Theorem collectors_succeed_exactly_when :
  (∀ (json : JSON NewsAPI.NewsAPIResponse) net n queryRaw idiomasCSV
     fechaInicio fechaFin pageSize v,
     (NewsAPI.BuscarArticulos net n queryRaw idiomasCSV
        fechaInicio fechaFin pageSize).2 = (Some v, None) ↔
     ∃ resp body,
       url_Parse_err net (NewsAPI.fullURL n queryRaw idiomasCSV
                            fechaInicio fechaFin pageSize) = None ∧
       RoundTrip net (NewsAPI.request n queryRaw idiomasCSV
                        fechaInicio fechaFin pageSize) = inr resp ∧
       Body resp = inr body ∧ Unmarshal body = inr v ∧
       NewsAPI.Status v = "ok") ∧
  (∀ (json : JSON GDELT.GDELTResponse) net g queryRaw idiomas
     fechaInicio fechaFin maxRecords v,
     (GDELT.BuscarArticulosMultiLang net g queryRaw idiomas
        fechaInicio fechaFin maxRecords).2 = (Some v, None) ↔
     ∃ resp body,
       url_Parse_err net (GDELT.fullURL g queryRaw idiomas
                            fechaInicio fechaFin maxRecords) = None ∧
       RoundTrip net (GDELT.request g queryRaw idiomas
                        fechaInicio fechaFin maxRecords) = inr resp ∧
       Body resp = inr body ∧ StatusCode resp = StatusOK ∧
       Unmarshal body = inr v) ∧
  (∀ (json : JSON Guardian.GuardianResponse) net g queryRaw
     fechaInicio fechaFin pageSize v,
     (Guardian.BuscarArticulos net g queryRaw
        fechaInicio fechaFin pageSize).2 = (Some v, None) ↔
     ∃ resp body,
       url_Parse_err net (Guardian.fullURL g queryRaw
                            fechaInicio fechaFin pageSize) = None ∧
       RoundTrip net (Guardian.request g queryRaw
                        fechaInicio fechaFin pageSize) = inr resp ∧
       Body resp = inr body ∧ StatusCode resp = StatusOK ∧
       Unmarshal body = inr v ∧
       Guardian.Status (Guardian.Response v) = "ok") ∧
  (∀ (json : JSON X.XResponse) net x queryRaw maxResults startTime endTime v,
     (X.BuscarTweets net x queryRaw maxResults startTime endTime).2
       = (Some v, None) ↔
     ∃ resp body,
       url_Parse_err net (X.fullURL x queryRaw maxResults startTime endTime)
         = None ∧
       RoundTrip net (X.request x queryRaw maxResults startTime endTime)
         = inr resp ∧
       Body resp = inr body ∧ StatusCode resp = StatusOK ∧
       Unmarshal body = inr v).
Proof.
  split_and!; intros.
  - rewrite NewsAPI_run_cases. succeed_iff net.
  - rewrite GDELT_run_cases. succeed_iff net.
  - rewrite Guardian_run_cases. succeed_iff net.
  - rewrite X_run_cases. succeed_iff net.
Qed.

End Collector_success.

(* ===================================================================== *)
(** * The query string                                                    *)
(* ===================================================================== *)

Section Query_string.

Lemma count_byte_append c s t :
  count_byte c (s +:+ t) = (count_byte c s + count_byte c t)%nat.
Proof.
  induction s as [|d s IH]; [done|].
  rewrite append_cons. simpl. rewrite IH. lia.
Qed.

Lemma all_bytes_append P s t :
  all_bytes P (s +:+ t) = all_bytes P s && all_bytes P t.
Proof.
  induction s as [|d s IH]; [done|].
  rewrite append_cons. simpl. by rewrite IH, andb_assoc.
Qed.

Lemma all_bytes_count P c s :
  all_bytes P s = true → P c = false → count_byte c s = 0%nat.
Proof.
  intros Hall Hc. induction s as [|d s IH]; [done|].
  simpl in *. apply andb_true_iff in Hall as [Hd Hs].
  rewrite (IH Hs). destruct (Ascii.eqb_spec c d) as [->|]; [congruence|done].
Qed.

Lemma QueryEscape_cons d s :
  QueryEscape (String d s) = QueryEscape (String d "") +:+ QueryEscape s.
Proof.
  simpl. destruct (shouldEscape d); [|done].
  by destruct (Ascii.eqb d " ").
Qed.

Lemma QueryEscape_byte_safe d :
  all_bytes query_safe (QueryEscape (String d "")) = true.
Proof. destruct d as [[] [] [] [] [] [] [] []]; by vm_compute. Qed.

(** Whatever the text, its escaped form holds only letters, digits and
    the marks [- _ . ~ % +]. *)
Lemma QueryEscape_safe s : all_bytes query_safe (QueryEscape s) = true.
Proof.
  induction s as [|d s IH]; [done|].
  by rewrite QueryEscape_cons, all_bytes_append, QueryEscape_byte_safe, IH.
Qed.

Lemma QueryEscape_no_separator s :
  count_byte "&" (QueryEscape s) = 0%nat ∧ count_byte "=" (QueryEscape s) = 0%nat.
Proof.
  split; eapply all_bytes_count; eauto using QueryEscape_safe.
Qed.

(** Counts the separators of a query string written out as literal
    names and escaped values. *)
Ltac count_separators :=
  cbn [Join]; rewrite ?count_byte_append;
  rewrite ?(λ s, proj1 (QueryEscape_no_separator s)),
          ?(λ s, proj2 (QueryEscape_no_separator s));
  reflexivity.

(** The query strings, parameter by parameter, in the order [Encode]
    gives them. *)
Lemma NewsAPI_query queryRaw idiomasCSV fechaInicio fechaFin pageSize :
  Values_Encode (NewsAPI.params queryRaw idiomasCSV fechaInicio fechaFin pageSize) =
  Join ["from=" +:+ QueryEscape fechaInicio;
        "language=" +:+ QueryEscape idiomasCSV;
        "pageSize=" +:+ QueryEscape (Sprintf_d pageSize);
        "q=%22Universidad+de+Antioquia%22+OR+UdeA";
        "sortBy=publishedAt";
        "to=" +:+ QueryEscape fechaFin] "&".
Proof. reflexivity. Qed.

Lemma GDELT_query queryRaw idiomas fechaInicio fechaFin maxRecords :
  Values_Encode (GDELT.params queryRaw idiomas fechaInicio fechaFin maxRecords) =
  Join ["enddatetime=" +:+ QueryEscape fechaFin;
        "format=json";
        "maxrecords=" +:+ QueryEscape (Sprintf_d maxRecords);
        "mode=artlist";
        "query=" +:+ QueryEscape (GDELT.finalQuery queryRaw idiomas);
        "startdatetime=" +:+ QueryEscape fechaInicio] "&".
Proof. reflexivity. Qed.

Lemma Guardian_query g queryRaw fechaInicio fechaFin pageSize :
  Values_Encode (Guardian.params g queryRaw fechaInicio fechaFin pageSize) =
  Join ["api-key=" +:+ QueryEscape (Guardian.APIKey g);
        "from-date=" +:+ QueryEscape fechaInicio;
        "page-size=" +:+ QueryEscape (Sprintf_d pageSize);
        "q=" +:+ QueryEscape (Guardian.finalQuery queryRaw);
        "to-date=" +:+ QueryEscape fechaFin;
        "type=article"] "&".
Proof. reflexivity. Qed.

Lemma X_query queryRaw maxResults startTime endTime :
  Values_Encode (X.params queryRaw maxResults startTime endTime) =
  Join ["end_time=" +:+ QueryEscape endTime;
        "max_results=" +:+ QueryEscape (Sprintf_d maxResults);
        "query=" +:+ QueryEscape (X.finalQuery queryRaw);
        "start_time=" +:+ QueryEscape startTime;
        "tweet.fields=created_at%2Cpublic_metrics"] "&".
Proof. reflexivity. Qed.

(** X13.  Whatever texts the caller passes (phrase, languages, dates, key),
    the query string of each collector has its fixed number of
    parameters: the separators [&] and [=] occur only where the
    collector wrote them, so an argument can neither add a parameter nor
    cut one short. *)
Theorem query_strings_keep_their_parameters :
  (∀ queryRaw idiomasCSV fechaInicio fechaFin pageSize,
     let q := Values_Encode (NewsAPI.params queryRaw idiomasCSV
                               fechaInicio fechaFin pageSize) in
     count_byte "&" q = 5%nat ∧ count_byte "=" q = 6%nat) ∧
  (∀ queryRaw idiomas fechaInicio fechaFin maxRecords,
     let q := Values_Encode (GDELT.params queryRaw idiomas
                               fechaInicio fechaFin maxRecords) in
     count_byte "&" q = 5%nat ∧ count_byte "=" q = 6%nat) ∧
  (∀ g queryRaw fechaInicio fechaFin pageSize,
     let q := Values_Encode (Guardian.params g queryRaw
                               fechaInicio fechaFin pageSize) in
     count_byte "&" q = 5%nat ∧ count_byte "=" q = 6%nat) ∧
  (∀ queryRaw maxResults startTime endTime,
     let q := Values_Encode (X.params queryRaw maxResults startTime endTime) in
     count_byte "&" q = 4%nat ∧ count_byte "=" q = 5%nat).
Proof.
  split_and!; intros; subst q.
  - rewrite NewsAPI_query. split; count_separators.
  - rewrite GDELT_query. split; count_separators.
  - rewrite Guardian_query. split; count_separators.
  - rewrite X_query. split; count_separators.
Qed.

End Query_string.

(* ===================================================================== *)
(** * The Guardian query phrase                                           *)
(* ===================================================================== *)

Section Guardian_phrase.

Lemma ReplaceAll_byte_removed c s :
  count_byte c (ReplaceAll s (String c "") "") = 0%nat.
Proof.
  unfold ReplaceAll. induction s as [|d s IH]; [done|].
  cbn [ReplaceAll_from String.prefix].
  destruct (ascii_dec c d) as [->|Hne].
  - assert (Hp : String.prefix "" s = true) by by destruct s.
    rewrite Hp. exact IH.
  - simpl. rewrite IH. by destruct (Ascii.eqb_spec c d).
Qed.

(** X14.  Whatever phrase it is given, the Guardian collector searches for a
    phrase without double quotes. *)
Theorem Guardian_finalQuery_has_no_quotes queryRaw :
  count_byte "034" (Guardian.finalQuery queryRaw) = 0%nat ∧
  Contains (Guardian.finalQuery queryRaw) dquote = false.
Proof.
  assert (Hcount : count_byte "034" (Guardian.finalQuery queryRaw) = 0%nat)
    by apply ReplaceAll_byte_removed.
  split; [done|].
  destruct (Contains _ dquote) eqn:Hc; [|done].
  apply Contains_occurs_in in Hc as (before & after & Heq).
  rewrite Heq, !count_byte_append in Hcount. simpl in Hcount. lia.
Qed.

(** The replacement of [OR] is textual: it also rewrites the inside of a
    word, and dropping the quotes afterwards can bring an [OR] back. *)
Example Guardian_finalQuery_inside_words :
  Guardian.finalQuery "Universidad de Antioquia OR UdeA"
    = "Universidad de Antioquia | UdeA" ∧
  Guardian.finalQuery "FLORIDA" = "FL|IDA" ∧
  Guardian.finalQuery ("O" +:+ dquote +:+ "R") = "OR".
Proof. by vm_compute. Qed.

End Guardian_phrase.

(* ===================================================================== *)
(** * Where the credentials travel                                        *)
(* ===================================================================== *)

Section Credentials.

Ltac split_run net :=
  repeat match goal with
  | |- context [url_Parse_err net ?u] => destruct (url_Parse_err net u) eqn:?
  | |- context [RoundTrip net ?r] => destruct (RoundTrip net r) as [?|?] eqn:?
  | |- context [Body ?r] => destruct (Body r) as [?|?] eqn:?
  | |- context [bool_decide ?P] => destruct (bool_decide_reflect P)
  | |- context [Unmarshal ?b] => destruct (Unmarshal b) as [?|?] eqn:?
  end.

Ltac the_request Hin :=
  simpl in Hin;
  first [ by apply elem_of_nil in Hin
        | apply list_elem_of_singleton in Hin; subst ].

(** X15.  Every request a collector sends is a GET.  NewsAPI carries its key
    in the [X-Api-Key] header and X its token in the [Authorization]
    header, and neither appears in the URL, which is the same for any
    two keys; the GDELT request carries no credential; the Guardian
    request has no header at all and carries its key in the URL, as the
    [api-key] parameter. *)
Theorem credentials_travel_as_configured :
  (∀ (json : JSON NewsAPI.NewsAPIResponse) net n queryRaw idiomasCSV
     fechaInicio fechaFin pageSize req,
     req ∈ requests_sent (NewsAPI.BuscarArticulos net n queryRaw idiomasCSV
                            fechaInicio fechaFin pageSize).1 →
     ReqMethod req = "GET" ∧
     ReqHeader req = {[ "X-Api-Key" := [NewsAPI.APIKey n];
                        "User-Agent" := ["EthicalCrawlerNews/1.0"] ]} ∧
     ∀ key, ReqURL req =
       NewsAPI.fullURL (NewsAPI.mkCrawler (NewsAPI.BaseURL n) (NewsAPI.Client n) key)
         queryRaw idiomasCSV fechaInicio fechaFin pageSize) ∧
  (∀ (json : JSON X.XResponse) net x queryRaw maxResults startTime endTime req,
     req ∈ requests_sent (X.BuscarTweets net x queryRaw maxResults
                            startTime endTime).1 →
     ReqMethod req = "GET" ∧
     ReqHeader req = {[ "Authorization" := ["Bearer " +:+ X.BearerToken x];
                        "User-Agent" := ["EthicalXCrawler/1.0 (StudentResearch)"] ]} ∧
     ∀ token, ReqURL req =
       X.fullURL (X.mkCrawler (X.BaseURL x) (X.Client x) token)
         queryRaw maxResults startTime endTime) ∧
  (∀ (json : JSON GDELT.GDELTResponse) net g queryRaw idiomas
     fechaInicio fechaFin maxRecords req,
     req ∈ requests_sent (GDELT.BuscarArticulosMultiLang net g queryRaw idiomas
                            fechaInicio fechaFin maxRecords).1 →
     ReqMethod req = "GET" ∧
     ReqHeader req = {[ "User-Agent" := ["EthicalCrawler/1.0 (StudentResearch)"] ]}) ∧
  (∀ (json : JSON Guardian.GuardianResponse) net g queryRaw
     fechaInicio fechaFin pageSize req,
     req ∈ requests_sent (Guardian.BuscarArticulos net g queryRaw
                            fechaInicio fechaFin pageSize).1 →
     ReqMethod req = "GET" ∧ ReqHeader req = ∅ ∧
     ∃ rest, ReqURL req =
       Guardian.BaseURL g +:+ "?api-key=" +:+
       QueryEscape (Guardian.APIKey g) +:+ "&" +:+ rest).
Proof.
  split_and!; intros json net.
  - intros n q idiomas fi ff ps req.
    rewrite NewsAPI_run_cases. split_run net; intros Hin; the_request Hin.
    all: split_and!; [done|reflexivity|done].
  - intros x q mr st et req.
    rewrite X_run_cases. split_run net; intros Hin; the_request Hin.
    all: split_and!; [done|reflexivity|done].
  - intros g q idiomas fi ff mr req.
    rewrite GDELT_run_cases. split_run net; intros Hin; the_request Hin.
    all: split; [done|reflexivity].
  - intros g q fi ff ps req.
    rewrite Guardian_run_cases. split_run net; intros Hin; the_request Hin.
    all: split_and!; [done..|].
    all: eexists; unfold Guardian.request, Guardian.fullURL; cbn [ReqURL].
    all: rewrite Guardian_query; reflexivity.
Qed.

End Credentials.

(* ===================================================================== *)
(** * Properties of the RSS reader                                        *)
(* ===================================================================== *)

Section RSS_truncate.

Lemma slice_string_to_append s t :
  slice_string_to (s +:+ t) (String.length s) = s.
Proof.
  unfold slice_string_to. induction s as [|c s IH].
  - by destruct t.
  - rewrite append_cons. simpl. by rewrite IH.
Qed.

Lemma len_nonneg s : 0 ≤ len s.
Proof. unfold len. lia. Qed.

(** X16.  [truncate(s, max)] for [max >= 0] returns [s] itself when it has at
    most [max] bytes, and otherwise its first [max] bytes followed by
    "...": [max + 3] bytes, so never more than that.  For [max < 0] the
    call panics, whatever [s]. *)
Theorem truncate_cuts_at_max s max :
  (0 ≤ max →
     ∃ t, RSS.truncate s max = Returns t ∧ len t ≤ max + 3 ∧
       (len s ≤ max → t = s) ∧
       (max < len s →
          t = slice_string_to s (Z.to_nat max) +:+ "..." ∧ len t = max + 3 ∧
          ∃ rest, s = slice_string_to s (Z.to_nat max) +:+ rest)) ∧
  (max < 0 → ∃ msg, RSS.truncate s max = Panics msg).
Proof.
  unfold RSS.truncate. pose proof (len_nonneg s) as Hs. split; intros Hmax.
  - case_bool_decide as Hle.
    + exists s. split_and!; [done|lia|done|lia].
    + rewrite bool_decide_eq_true_2 by lia.
      destruct (slice_string_to_prefix s (Z.to_nat max)) as [Hlen [rest Hrest]];
        [unfold len in *; lia|].
      assert (Hcut : len (slice_string_to s (Z.to_nat max) +:+ "...") = max + 3).
      { unfold len. rewrite length_append, Hlen. simpl. lia. }
      eexists. split_and!; [done|lia|lia|].
      intros _. split_and!; [done|done|by exists rest].
  - rewrite bool_decide_eq_false_2 by lia.
    rewrite bool_decide_eq_false_2 by lia. by eexists.
Qed.

Lemma truncate_cuts_at_max_witness :
  (∃ t, RSS.truncate "Universidad de Antioquia" 11 = Returns t ∧
     len t ≤ 11 + 3 ∧
     (len "Universidad de Antioquia" ≤ 11 → t = "Universidad de Antioquia") ∧
     (11 < len "Universidad de Antioquia" →
        t = slice_string_to "Universidad de Antioquia" (Z.to_nat 11) +:+ "..." ∧
        len t = 11 + 3 ∧
        ∃ rest, "Universidad de Antioquia" =
                slice_string_to "Universidad de Antioquia" (Z.to_nat 11) +:+ rest)) ∧
  (∃ msg, RSS.truncate "Universidad de Antioquia" (-1) = Panics msg).
Proof.
  split.
  - apply (proj1 (truncate_cuts_at_max "Universidad de Antioquia" 11)). lia.
  - apply (proj2 (truncate_cuts_at_max "Universidad de Antioquia" (-1))). lia.
Defined.

(** X17.  Truncating twice is truncating once. *)
Theorem truncate_idempotent s max t :
  0 ≤ max → RSS.truncate s max = Returns t → RSS.truncate t max = Returns t.
Proof.
  unfold RSS.truncate. intros Hmax. pose proof (len_nonneg s) as Hs.
  case_bool_decide as Hle.
  - intros [= <-]. by rewrite bool_decide_eq_true_2.
  - rewrite bool_decide_eq_true_2 by lia. intros [= <-].
    destruct (slice_string_to_prefix s (Z.to_nat max)) as [Hlen _];
      [unfold len in *; lia|].
    assert (Hcut : len (slice_string_to s (Z.to_nat max) +:+ "...") = max + 3).
    { unfold len. rewrite length_append, Hlen. simpl. lia. }
    rewrite bool_decide_eq_false_2 by lia.
    rewrite bool_decide_eq_true_2 by lia.
    rewrite <- Hlen at 2. by rewrite slice_string_to_append.
Qed.

Lemma truncate_idempotent_witness :
  RSS.truncate "Universidad..." 11 = Returns "Universidad...".
Proof.
  apply (truncate_idempotent "Universidad de Antioquia" 11 "Universidad...");
    [lia|reflexivity].
Defined.

End RSS_truncate.

Section RSS_main.

Import RSS.

Lemma bind_returns {A B} (c : Prog A) (f : A → Prog B) a :
  c.2 = Returns a → (c ≫= f) = ((c.1 ++ (f a).1)%list, (f a).2).
Proof. unfold mbind, Prog_bind. by intros ->. Qed.

(** A loop whose bodies all return runs them all, in order. *)
Lemma for_each_returns {A} (l : list A) (body : A → Prog unit) :
  (∀ x, x ∈ l → (body x).2 = Returns tt) →
  for_each l body = (concat ((λ x, (body x).1) <$> l), Returns tt).
Proof.
  induction l as [|x l IH]; intros Hall; [done|].
  cbn [for_each].
  rewrite (bind_returns _ _ tt) by (apply Hall; left).
  rewrite IH by (intros y Hy; apply Hall; by right). done.
Qed.

Lemma truncate_120_returns s : ∃ t, truncate s 120 = Returns t.
Proof.
  unfold truncate. pose proof (len_nonneg s).
  case_bool_decide; [by eexists|].
  rewrite bool_decide_eq_true_2 by lia. by eexists.
Qed.

(** Printing an item never panics and writes nothing to the logger. *)
Lemma print_item_returns item :
  (print_item item).2 = Returns tt ∧ logged (print_item item).1 = [].
Proof.
  unfold print_item.
  destruct (truncate_120_returns (Description item)) as [t Ht].
  unfold Println, skip, index, mbind, Prog_bind, mret, Prog_ret. simpl.
  rewrite Ht. simpl.
  destruct (Categories item); destruct (Author item); destruct (Image item);
    destruct (Enclosures item); simpl; done.
Qed.

Lemma limit_le feed : limit feed = Nat.min 3 (length (Items feed)).
Proof. unfold limit. case_bool_decide; lia. Qed.

Lemma index_in_bounds {A} (l : list A) i :
  (i < length l)%nat → ∃ x, l !! i = Some x ∧ index l i = mret x.
Proof.
  intros Hi. destruct (lookup_lt_is_Some_2 l i Hi) as [x Hx].
  exists x. split; [done|]. unfold index. by rewrite Hx.
Qed.

(** The items loop, on a parsed feed: the first three items, or all of
    them when there are fewer, in order; no index is out of range. *)
Lemma items_loop_returns feed :
  for_each (seq 0 (limit feed))
    (λ i, item ← index (Items feed) i; print_item item)
  = (concat ((λ item, (print_item item).1) <$> take 3 (Items feed)), Returns tt).
Proof.
  rewrite limit_le.
  remember (λ i, item ← index (Items feed) i; print_item item) as body eqn:Hb.
  assert (Hbody : ∀ i, (i < Nat.min 3 (length (Items feed)))%nat →
            ∃ item, Items feed !! i = Some item ∧ body i = print_item item).
  { intros i Hi. destruct (index_in_bounds (Items feed) i ltac:(lia))
      as (item & Hitem & Hindex).
    exists item. split; [done|]. rewrite Hb, Hindex.
    rewrite (bind_returns _ _ item) by done.
    destruct (print_item item). reflexivity. }
  rewrite for_each_returns.
  - f_equal. f_equal.
    apply list_eq. intros j. rewrite !list_lookup_fmap, lookup_take.
    destruct (decide (j < Nat.min 3 (length (Items feed)))%nat) as [Hj|Hj].
    + rewrite lookup_seq_lt by done. cbn [fmap option_fmap option_map Nat.add].
      destruct (Hbody j Hj) as (item & Hitem & ->).
      case_decide; [|lia]. by rewrite Hitem.
    + rewrite lookup_seq_ge by lia. cbn [fmap option_fmap option_map].
      case_decide; [|done]. rewrite lookup_ge_None_2; [done|lia].
  - intros i [_ Hi]%elem_of_seq. cbn [Nat.add] in Hi.
    destruct (Hbody i Hi) as (item & _ & ->). apply print_item_returns.
Qed.

Lemma elem_of_concat {A} (x : A) (l : list A) (ls : list (list A)) :
  x ∈ l → l ∈ ls → x ∈ concat ls.
Proof.
  intros Hx Hl. induction Hl as [|l' ls Hl IH]; simpl; apply elem_of_app; auto.
Qed.

Lemma logged_app out1 out2 : logged (out1 ++ out2) = logged out1 ++ logged out2.
Proof. unfold logged. apply omap_app. Qed.

Lemma logged_items (items : list Item) :
  logged (concat ((λ item, (print_item item).1) <$> items)) = [].
Proof.
  induction items as [|item items IH]; [done|].
  rewrite fmap_cons. cbn [concat]. rewrite logged_app, IH.
  by rewrite (proj2 (print_item_returns item)).
Qed.

(** One turn of the outer loop. *)
Lemma report_run parser url :
  report parser url =
  ([Stdout ("===============================================" +:+ nl);
    Stdout ("FEED: " +:+ url +:+ nl);
    Stdout ("===============================================" +:+ nl)]
   ++ match parser url with
      | inl err =>
          [Stderr (Join ["Error al leer feed:"; url; err] " " +:+ nl)]
      | inr feed =>
          [Stdout ("Título del canal: " +:+ FeedTitle feed +:+ nl);
           Stdout ("Descripción: " +:+ FeedDescription feed +:+ nl);
           Stdout ("Primeros 3 artículos:" +:+ nl)]
          ++ concat ((λ item, (print_item item).1) <$> take 3 (Items feed))
      end,
   Returns tt).
Proof.
  unfold report. destruct (parser url) as [err|feed].
  - reflexivity.
  - rewrite items_loop_returns. reflexivity.
Qed.

(** X18.  A parsed feed shows its first three items, in order, or all of them
    when it has fewer; a fourth item is never shown and no index is out
    of range. *)
Theorem report_shows_first_three parser url feed :
  parser url = inr feed →
  report parser url =
  ([Stdout ("===============================================" +:+ nl);
    Stdout ("FEED: " +:+ url +:+ nl);
    Stdout ("===============================================" +:+ nl);
    Stdout ("Título del canal: " +:+ FeedTitle feed +:+ nl);
    Stdout ("Descripción: " +:+ FeedDescription feed +:+ nl);
    Stdout ("Primeros 3 artículos:" +:+ nl)]
   ++ concat ((λ item, (print_item item).1) <$> take 3 (Items feed)),
   Returns tt).
Proof. intros Hfeed. by rewrite report_run, Hfeed. Qed.

Lemma logged_reports parser (urls : list string) :
  logged (concat ((λ url, (report parser url).1) <$> urls)) =
  omap (λ url, match parser url with
               | inl err =>
                   Some (Join ["Error al leer feed:"; url; err] " " +:+ nl)
               | inr _ => None
               end) urls.
Proof.
  induction urls as [|url urls IH]; [done|].
  rewrite fmap_cons. cbn [concat omap list_omap]. rewrite logged_app, IH.
  rewrite report_run. cbn [fst]. rewrite logged_app.
  destruct (parser url) as [err|feed]; [done|].
  rewrite logged_app, logged_items. done.
Qed.

(** X19.  A feed that cannot be read does not stop the reader: whatever the
    parser answers, [main] returns without a panic, the heading of each
    of the five feeds is printed, and the logger holds one line for each
    feed that failed, in the order of the list, and nothing else. *)
Theorem main_survives_failing_feeds parser :
  (main parser).2 = Returns tt ∧
  (∀ url, url ∈ feeds → Stdout ("FEED: " +:+ url +:+ nl) ∈ (main parser).1) ∧
  logged (main parser).1 =
    omap (λ url, match parser url with
                 | inl err =>
                     Some (Join ["Error al leer feed:"; url; err] " " +:+ nl)
                 | inr _ => None
                 end) feeds.
Proof.
  unfold main. rewrite for_each_returns by (intros; by rewrite report_run).
  cbn [fst snd]. split_and!; [done| |apply logged_reports].
  intros url Hurl. apply (elem_of_concat _ (report parser url).1).
  - rewrite report_run. cbn [fst app]. right. left.
  - by apply (list_elem_of_fmap_2 (λ x, (report parser x).1)).
Qed.

End RSS_main.

Lemma report_shows_first_three_witness :
  RSS.report flaky_parser "https://www.eltiempo.com/rss/eltiempo.xml" =
  ([RSS.Stdout ("===============================================" +:+ nl);
    RSS.Stdout ("FEED: " +:+ "https://www.eltiempo.com/rss/eltiempo.xml" +:+ nl);
    RSS.Stdout ("===============================================" +:+ nl);
    RSS.Stdout ("Título del canal: " +:+ RSS.FeedTitle four_items +:+ nl);
    RSS.Stdout ("Descripción: " +:+ RSS.FeedDescription four_items +:+ nl);
    RSS.Stdout ("Primeros 3 artículos:" +:+ nl)]
   ++ concat ((λ item, (RSS.print_item item).1) <$> take 3 (RSS.Items four_items)),
   Returns tt).
Proof.
  apply (report_shows_first_three flaky_parser
           "https://www.eltiempo.com/rss/eltiempo.xml" four_items).
  reflexivity.
Defined.

(* ===================================================================== *)
(** * Properties of the X report and of its [main]                        *)
(* ===================================================================== *)

Section X_report.

Context (Format : string → Time → string).

Lemma sample_loop_take i data :
  X.sample_loop Format i data =
  concat (imap (λ j tweet, X.print_tweet Format (i + j) tweet)
            (take (5 - i) data)).
Proof.
  revert i. induction data as [|tweet data IH]; intros i.
  - by rewrite take_nil.
  - cbn [X.sample_loop]. case_bool_decide as Hi.
    + by replace (5 - i)%nat with 0%nat by lia.
    + replace (5 - i)%nat with (S (5 - S i)) by lia.
      rewrite IH. cbn [take imap concat]. rewrite Nat.add_0_r.
      f_equal. f_equal. apply imap_ext. intros j t _. simpl.
      f_equal. lia.
Qed.

Lemma length_concat_print_tweet i (data : list X.Tweet) :
  length (concat (imap (λ j tweet, X.print_tweet Format (i + j) tweet) data))
  = (5 * length data)%nat.
Proof.
  revert i. induction data as [|tweet data IH]; intros i; [done|].
  cbn [imap concat]. rewrite length_app.
  rewrite (imap_ext _ (λ j t, X.print_tweet Format (S i + j) t))
    by (intros; simpl; f_equal; lia).
  rewrite IH. simpl. lia.
Qed.

(** X20.  [ExplorarDatosX] decides on [Meta.ResultCount], not on the
    tweets it holds: with a count of zero (or a nil response) it makes
    exactly the two print calls of the empty report, whatever [Data]
    holds; otherwise it makes the four print calls of the heading and
    then, for each of the first five tweets (all of them when there are
    fewer), numbered from 1, the five print calls of a tweet, so 29
    print calls at most.  The texts are those of the source. *)
Theorem ExplorarDatosX_shows_first_five response :
  let out := X.ExplorarDatosX Format response in
  ((response = None ∨
    ∃ r, response = Some r ∧ X.ResultCount (X.Meta r) = 0) →
   out = [EvPrintf (nl +:+ "--- EXPLORACIÓN DE DATOS X ---" +:+ nl);
          EvPrintf ("No se encontraron tweets que coincidan con la búsqueda." +:+ nl)]) ∧
  (∀ r, response = Some r → X.ResultCount (X.Meta r) ≠ 0 →
     out =
       [EvPrintf (nl +:+ "--- EXPLORACIÓN DE DATOS - X (Últimos 7 Días) ---" +:+ nl);
        EvPrintf ("Total de tweets encontrados: " +:+
                  Sprintf_d (X.ResultCount (X.Meta r)) +:+ nl);
        EvPrintf ("Tweets recuperados: " +:+
                  Sprintf_d (Z.of_nat (length (X.Data r))) +:+ nl +:+ nl);
        EvPrintf ("Primeros 5 Tweets de Muestra:" +:+ nl)] ++
       concat (imap (λ j tweet,
                 [EvPrintf (nl +:+ "  " +:+ Sprintf_d (Z.of_nat j + 1) +:+
                            ". ID: " +:+ X.ID tweet +:+ nl);
                  EvPrintf ("      Fecha: " +:+
                            Format "2006-01-02 15:04" (X.CreatedAt tweet) +:+ nl);
                  EvPrintf ("      Compartidos/Retweets: " +:+
                            Sprintf_d (X.RetweetCount (X.Metrics tweet)) +:+ nl);
                  EvPrintf ("      Likes: " +:+
                            Sprintf_d (X.LikeCount (X.Metrics tweet)) +:+
                            " | Respuestas: " +:+
                            Sprintf_d (X.ReplyCount (X.Metrics tweet)) +:+ nl);
                  EvPrintf ("      Texto: " +:+ X.Text tweet +:+ nl)])
                 (take 5 (X.Data r))) ∧
     length out = (4 + 5 * Nat.min 5 (length (X.Data r)))%nat ∧
     (length out ≤ 29)%nat).
Proof.
  intros out. subst out. split.
  - intros [->|(r & -> & Hz)]; [done|].
    unfold X.ExplorarDatosX. by rewrite bool_decide_eq_true_2.
  - intros r -> Hnz. unfold X.ExplorarDatosX.
    rewrite bool_decide_eq_false_2 by done.
    rewrite sample_loop_take.
    replace (5 - 0)%nat with 5%nat by done.
    assert (Hlen : length (concat (imap (λ j tweet, X.print_tweet Format (0 + j) tweet)
                             (take 5 (X.Data r))))
                   = (5 * Nat.min 5 (length (X.Data r)))%nat)
      by by rewrite length_concat_print_tweet, length_take.
    split_and!.
    + reflexivity.
    + rewrite length_app, Hlen. done.
    + rewrite length_app, Hlen. cbn [length]. lia.
Qed.

End X_report.

Section X_main.

Context `{!JSON X.XResponse} (net : Network) (Format : string → Time → string).
Context (bearerToken startTime endTime : string).

Ltac split_run net :=
  repeat match goal with
  | |- context [url_Parse_err net ?u] => destruct (url_Parse_err net u) eqn:?
  | |- context [RoundTrip net ?r] => destruct (RoundTrip net r) as [?|?] eqn:?
  | |- context [Body ?r] => destruct (Body r) as [?|?] eqn:?
  | |- context [bool_decide ?P] => destruct (bool_decide_reflect P)
  | |- context [Unmarshal ?b] => destruct (Unmarshal b) as [?|?] eqn:?
  end.

(** X21.  [main] of the X collector.  When the search fails, the run prints
    the fatal heading and the error after what the search has printed,
    and stops there: no report and no completion line.  When it
    succeeds, the response handed to [ExplorarDatosX] is never nil, and
    the run ends with the completion line. *)
Theorem X_main_stops_on_error :
  let search :=
    X.BuscarTweets net (X.NewXCrawler bearerToken)
      (dquote +:+ "Universidad de Antioquia" +:+ dquote +:+ " OR UdeA")
      50 startTime endTime in
  let out := X.main net Format bearerToken startTime endTime in
  (∀ err, search.2.2 = Some err →
     out = search.1 ++
           [EvPrintf (nl +:+ "--- [ERROR FATAL X] ---" +:+ nl);
            EvPrintf ("Error: " +:+ err +:+ nl)]) ∧
  (search.2.2 = None →
     ∃ response, search.2 = (Some response, None) ∧
       out = search.1 ++ X.ExplorarDatosX Format (Some response) ++
             [EvPrintf (nl +:+ "Exploración completada." +:+ nl)]).
Proof.
  intros search out. subst out. unfold X.main. fold search.
  assert (Hshape : result_or_error search.2).
  { subst search. rewrite X_run_cases. unfold result_or_error.
    split_run net; cbn [fst snd]; eauto. }
  destruct search as [trace [response err]].
  unfold result_or_error in Hshape. cbn [fst snd] in *.
  split.
  - by intros e ->.
  - intros ->. destruct Hshape as [[[v ->] _]|[_ [? ?]]]; [|done].
    by exists v.
Qed.

End X_main.

Lemma ExplorarDatosX_shows_first_five_witness :
  X.ExplorarDatosX show_instant (Some six_tweets) =
    [EvPrintf (nl +:+ "--- EXPLORACIÓN DE DATOS - X (Últimos 7 Días) ---" +:+ nl);
     EvPrintf ("Total de tweets encontrados: " +:+
               Sprintf_d (X.ResultCount (X.Meta six_tweets)) +:+ nl);
     EvPrintf ("Tweets recuperados: " +:+
               Sprintf_d (Z.of_nat (length (X.Data six_tweets))) +:+ nl +:+ nl);
     EvPrintf ("Primeros 5 Tweets de Muestra:" +:+ nl)] ++
    concat (imap (λ j tweet,
              [EvPrintf (nl +:+ "  " +:+ Sprintf_d (Z.of_nat j + 1) +:+
                         ". ID: " +:+ X.ID tweet +:+ nl);
               EvPrintf ("      Fecha: " +:+
                         show_instant "2006-01-02 15:04" (X.CreatedAt tweet) +:+ nl);
               EvPrintf ("      Compartidos/Retweets: " +:+
                         Sprintf_d (X.RetweetCount (X.Metrics tweet)) +:+ nl);
               EvPrintf ("      Likes: " +:+
                         Sprintf_d (X.LikeCount (X.Metrics tweet)) +:+
                         " | Respuestas: " +:+
                         Sprintf_d (X.ReplyCount (X.Metrics tweet)) +:+ nl);
               EvPrintf ("      Texto: " +:+ X.Text tweet +:+ nl)])
              (take 5 (X.Data six_tweets))) ∧
  length (X.ExplorarDatosX show_instant (Some six_tweets)) =
    (4 + 5 * Nat.min 5 (length (X.Data six_tweets)))%nat ∧
  (length (X.ExplorarDatosX show_instant (Some six_tweets)) ≤ 29)%nat.
Proof.
  apply (proj2 (ExplorarDatosX_shows_first_five show_instant (Some six_tweets))
           six_tweets); [reflexivity|by vm_compute].
Defined.

(** The reader on the parser that fails for three of the five feeds:
    it returns, with three lines on the logger, 57 lines printed, and
    three items for each of the two feeds that were read. *)
Example main_with_flaky_parser :
  let r := RSS.main flaky_parser in
  (r.2, length (RSS.logged r.1), length (RSS.printed r.1),
   length (filter (λ line, line = "---------------" +:+ nl) (RSS.printed r.1)))
  = (Returns tt, 3%nat, 57%nat, 6%nat).
Proof. vm_compute. reflexivity. Qed.

(* ===================================================================== *)
(** * Properties of the Guardian report and of its [main]                 *)
(* ===================================================================== *)

Section Guardian_main.

Context `{!JSON Guardian.GuardianResponse} (net : Network).
Context (Format : string → Time → string) (RuneCount : string → nat).

Ltac split_run net :=
  repeat match goal with
  | |- context [url_Parse_err net ?u] => destruct (url_Parse_err net u) eqn:?
  | |- context [RoundTrip net ?r] => destruct (RoundTrip net r) as [?|?] eqn:?
  | |- context [Body ?r] => destruct (Body r) as [?|?] eqn:?
  | |- context [bool_decide ?P] => destruct (bool_decide_reflect P)
  | |- context [Unmarshal ?b] => destruct (Unmarshal b) as [?|?] eqn:?
  end.

(** On a response that is not nil the report returns, and it lists at
    most five sections. *)
Lemma ExplorarDatosGuardian_returns r out ends :
  Guardian.ExplorarDatosGuardian Format RuneCount (Some r) out ends →
  ends = Returns tt.
Proof.
  unfold Guardian.ExplorarDatosGuardian. cbv zeta.
  case_bool_decide; [by intros [_ ->]|].
  intros (final & Hrun & Hout). unfold Guardian.topSecciones in Hrun.
  destruct (getTopN_returns _ 5 final ltac:(lia) Hrun)
    as (sorted & _ & _ & _ & _ & _ & _ & Hres).
  rewrite Hres in Hout. by destruct Hout.
Qed.

Lemma ExplorarDatosGuardian_runs r :
  ∃ out, Guardian.ExplorarDatosGuardian Format RuneCount (Some r) out (Returns tt).
Proof.
  unfold Guardian.ExplorarDatosGuardian. cbv zeta.
  case_bool_decide; [by eexists|].
  pose proof (getTopN_exec_run (Guardian.secciones r) 5) as Hrun.
  destruct (getTopN_returns _ 5 _ ltac:(lia) Hrun)
    as (sorted & _ & _ & _ & _ & _ & _ & Hres).
  eexists. exists (getTopN_exec (Guardian.secciones r) 5).
  split; [exact Hrun|]. rewrite Hres. done.
Qed.

(** X22.  [ExplorarDatosGuardian] dereferences its argument without a test for
    nil, so a nil response makes it panic before it prints anything;
    [main] is safe all the same: it reports only when the search
    returned no error, and then the response is never nil.  Every run of
    [main] returns, ending with the error line when the search failed
    and with the completion line otherwise, and a run exists. *)
Theorem Guardian_main_never_explores_nil apiKey :
  let search :=
    Guardian.BuscarArticulos net (Guardian.NewGuardianCrawler apiKey)
      "Universidad de Antioquia OR UdeA" "2023-01-01" "2023-12-31" 50 in
  (∀ out ends,
     Guardian.ExplorarDatosGuardian Format RuneCount None out ends →
     out = [] ∧ ∃ msg, ends = Panics msg) ∧
  (∃ out, Guardian.main net Format RuneCount apiKey out (Returns tt)) ∧
  (∀ out ends, Guardian.main net Format RuneCount apiKey out ends →
     ends = Returns tt ∧
     match search.2.2 with
     | Some err => last out = Some (EvPrintf ("Error: " +:+ err +:+ nl))
     | None =>
         is_Some search.2.1 ∧
         last out = Some (EvPrintf (nl +:+ "Exploración completada." +:+ nl))
     end).
Proof.
  intros search.
  assert (Hshape : result_or_error search.2).
  { subst search. rewrite Guardian_run_cases. unfold result_or_error.
    split_run net; cbn [fst snd]; eauto. }
  unfold Guardian.main. cbv zeta. fold search.
  destruct search as [trace [response err]].
  unfold result_or_error in Hshape. cbn [fst snd] in *.
  split_and!.
  - intros out ends [-> ->]. eauto.
  - destruct err as [err|].
    + by eexists.
    + destruct Hshape as [[[r ->] _]|[_ [? ?]]]; [|done].
      destruct (ExplorarDatosGuardian_runs r) as [report Hreport].
      eexists. by exists report, (Returns tt).
  - intros out ends Hmain. destruct err as [err|].
    + destruct Hmain as [-> ->]. split; [done|].
      by rewrite last_app.
    + destruct Hshape as [[[r ->] _]|[_ [? ?]]]; [|done].
      destruct Hmain as (report & report_ends & Hreport & Hout).
      apply ExplorarDatosGuardian_returns in Hreport as ->.
      destruct Hout as [-> ->]. split_and!; [done|by eexists|].
      by rewrite !last_app.
Qed.

Lemma Guardian_sample_loop_take i (results : list Guardian.GuardianArticle) :
  Guardian.sample_loop Format i results =
  concat (imap (λ j art, Guardian.print_article Format (i + j) art)
            (take (5 - i) results)).
Proof.
  revert i. induction results as [|art results IH]; intros i.
  - by rewrite take_nil.
  - cbn [Guardian.sample_loop]. case_bool_decide as Hi.
    + by replace (5 - i)%nat with 0%nat by lia.
    + replace (5 - i)%nat with (S (5 - S i)) by lia.
      rewrite IH. cbn [take imap concat]. rewrite Nat.add_0_r.
      f_equal. f_equal. apply imap_ext. intros j t _. simpl.
      f_equal. lia.
Qed.

Lemma length_concat_print_article i (results : list Guardian.GuardianArticle) :
  length (concat (imap (λ j art, Guardian.print_article Format (i + j) art) results))
  = (4 * length results)%nat.
Proof.
  revert i. induction results as [|art results IH]; intros i; [done|].
  cbn [imap concat]. rewrite length_app.
  rewrite (imap_ext _ (λ j t, Guardian.print_article Format (S i + j) t))
    by (intros; simpl; f_equal; lia).
  rewrite IH. simpl. lia.
Qed.

(** X23.  On a response with results, every run of
    [ExplorarDatosGuardian] returns after exactly these print calls, with
    the texts of the source: the four calls of the heading; one row for
    each entry of a ranking of at most five sections, each an entry of
    the section table, numbered from 1; the heading of the sample; and,
    for each of the first five results (all of them when there are
    fewer), the four calls of a result.  That is 30 print calls at
    most. *)
Theorem ExplorarDatosGuardian_is_short r out ends :
  Guardian.Results (Guardian.Response r) ≠ [] →
  Guardian.ExplorarDatosGuardian Format RuneCount (Some r) out ends →
  ends = Returns tt ∧
  ∃ top,
    out =
      [EvPrintf (nl +:+ "--- EXPLORACIÓN DE DATOS - THE GUARDIAN ---" +:+ nl);
       EvPrintf ("Total de artículos encontrados (en el archivo): " +:+
                 Sprintf_d (Guardian.Total (Guardian.Response r)) +:+ nl);
       EvPrintf ("Artículos recuperados (página): " +:+
                 Sprintf_d (Z.of_nat (length (Guardian.Results
                                                (Guardian.Response r)))) +:+
                 nl +:+ nl);
       EvPrintf ("Top 5 Secciones:" +:+ nl)] ++
      imap (λ i item,
              EvPrintf ("  " +:+ Sprintf_2d (Z.of_nat i + 1) +:+ ". " +:+
                        Sprintf_left RuneCount 20 (Key item) +:+ " (" +:+
                        Sprintf_d (Value item) +:+ " artículos)" +:+ nl)) top ++
      [EvPrintf (nl +:+ "Primeros 5 Artículos de Muestra:" +:+ nl)] ++
      concat (imap (λ j art,
                [EvPrintf (nl +:+ "  " +:+ Sprintf_d (Z.of_nat j + 1) +:+
                           ". Título: " +:+ Guardian.WebTitle art +:+ nl);
                 EvPrintf ("      Sección: " +:+ Guardian.SectionName art +:+ nl);
                 EvPrintf ("      Publicado: " +:+
                           Format "2006-01-02" (Guardian.WebPublicationDate art) +:+
                           nl);
                 EvPrintf ("      URL: " +:+ Guardian.WebUrl art +:+ nl)])
                (take 5 (Guardian.Results (Guardian.Response r)))) ∧
    (length top ≤ 5)%nat ∧
    (∀ row, row ∈ top →
       Guardian.secciones r !! Key row = Some (Value row)) ∧
    (length out ≤ 30)%nat.
Proof.
  intros Hresults. unfold Guardian.ExplorarDatosGuardian. cbv zeta.
  rewrite bool_decide_eq_false_2 by (by destruct (Guardian.Results _)).
  intros (final & Hrun & Hout). unfold Guardian.topSecciones in Hrun.
  destruct (getTopN_returns _ 5 final ltac:(lia) Hrun)
    as (sorted & Hperm & _ & _ & _ & _ & _ & Hres).
  rewrite Hres in Hout. destruct Hout as [-> ->].
  split; [done|].
  set (top := take (Z.to_nat (Z.min 5 (Z.of_nat (size (Guardian.secciones r))))) sorted).
  assert (Htop : (length top ≤ 5)%nat) by (subst top; rewrite length_take; lia).
  exists top. rewrite Guardian_sample_loop_take.
  replace (5 - 0)%nat with 5%nat by done.
  split_and!.
  - reflexivity.
  - done.
  - intros row Hin%subseteq_take. rewrite Hperm in Hin.
    by apply entries_of_map.
  - rewrite !length_app, length_concat_print_article, length_take.
    unfold Guardian.print_rows. rewrite length_imap. cbn [length]. lia.
Qed.

End Guardian_main.

Lemma ExplorarDatosGuardian_is_short_witness :
  Returns tt = Returns tt ∧
  ∃ top,
    Guardian.report_exec show_instant String.length three_results =
      [EvPrintf (nl +:+ "--- EXPLORACIÓN DE DATOS - THE GUARDIAN ---" +:+ nl);
       EvPrintf ("Total de artículos encontrados (en el archivo): " +:+
                 Sprintf_d (Guardian.Total (Guardian.Response three_results)) +:+ nl);
       EvPrintf ("Artículos recuperados (página): " +:+
                 Sprintf_d (Z.of_nat (length (Guardian.Results
                                                (Guardian.Response three_results)))) +:+
                 nl +:+ nl);
       EvPrintf ("Top 5 Secciones:" +:+ nl)] ++
      imap (λ i item,
              EvPrintf ("  " +:+ Sprintf_2d (Z.of_nat i + 1) +:+ ". " +:+
                        Sprintf_left String.length 20 (Key item) +:+ " (" +:+
                        Sprintf_d (Value item) +:+ " artículos)" +:+ nl)) top ++
      [EvPrintf (nl +:+ "Primeros 5 Artículos de Muestra:" +:+ nl)] ++
      concat (imap (λ j art,
                [EvPrintf (nl +:+ "  " +:+ Sprintf_d (Z.of_nat j + 1) +:+
                           ". Título: " +:+ Guardian.WebTitle art +:+ nl);
                 EvPrintf ("      Sección: " +:+ Guardian.SectionName art +:+ nl);
                 EvPrintf ("      Publicado: " +:+
                           show_instant "2006-01-02"
                             (Guardian.WebPublicationDate art) +:+ nl);
                 EvPrintf ("      URL: " +:+ Guardian.WebUrl art +:+ nl)])
                (take 5 (Guardian.Results (Guardian.Response three_results)))) ∧
    (length top ≤ 5)%nat ∧
    (∀ row, row ∈ top →
       Guardian.secciones three_results !! Key row = Some (Value row)) ∧
    (length (Guardian.report_exec show_instant String.length three_results)
       ≤ 30)%nat.
Proof.
  apply (ExplorarDatosGuardian_is_short show_instant String.length three_results
           (Guardian.report_exec show_instant String.length three_results)
           (Returns tt)).
  - by vm_compute.
  - unfold Guardian.ExplorarDatosGuardian. cbv zeta.
    rewrite bool_decide_eq_false_2 by (by vm_compute).
    exists (getTopN_exec (Guardian.secciones three_results) 5).
    split; [apply getTopN_exec_run|].
    assert (Hres : result (getTopN_exec (Guardian.secciones three_results) 5)
                   = Returns [mkKeyValue "World" 2; mkKeyValue "Science" 1])
      by by vm_compute.
    unfold Guardian.report_exec. rewrite Hres. split; reflexivity.
Defined.

(** The report on the three results: the two sections, ranked. *)
Example Guardian_report_rows :
  Guardian.print_rows String.length
    [mkKeyValue "World" 2; mkKeyValue "Science" 1] =
  [EvPrintf ("   1. World                (2 artículos)" +:+ nl);
   EvPrintf ("   2. Science              (1 artículos)" +:+ nl)].
Proof. by vm_compute. Qed.
